(** * PixelForge Nexus: authorization core

    A shallow embedding of the backend's access-control code
    (models, middleware and controllers) and the properties checked
    against it.  Collections are finite maps keyed by [_id]; time is a
    number of milliseconds since the epoch; every controller returns the
    HTTP response it writes together with the collections it changed. *)

From Stdlib Require Import ZArith String Ascii List Bool Lia.
From stdpp Require Import base option list strings gmap fin_maps.

Local Open Scope Z_scope.

(** ** Shared data *)

(** A Mongo [ObjectId], always handled through its [toString()] form. *)
Definition ObjectId := string.

(** The [role] enum of the user schema. *)
Inductive Role := admin | project_lead | developer.

#[global] Instance Role_eq_dec : EqDecision Role.
Proof. solve_decision. Defined.

Definition role_name (r : Role) : string :=
  match r with
  | admin => "admin"
  | project_lead => "project-lead"
  | developer => "developer"
  end.

(** [['admin', 'project-lead', 'developer'].includes(role)], returning the
    enum value on success. *)
Definition parse_role (s : string) : option Role :=
  if bool_decide (s = "admin") then Some admin
  else if bool_decide (s = "project-lead") then Some project_lead
  else if bool_decide (s = "developer") then Some developer
  else None.

(** [req.user], the context attached by [authenticate]. *)
Record ReqUser := mkReqUser {
  id : ObjectId;
  role : Role;
  email : string;
}.

(** The JSON answer of a controller: [res.status(s).json({success, message})]. *)
Record Response := mkResponse {
  status : Z;
  success : bool;
  message : string;
}.

Definition internalError : Response :=
  mkResponse 500 false "Internal server error".

(** [String.prototype.trim] on the ASCII white space characters. *)
Fixpoint trimStart (s : string) : string :=
  match s with
  | String a r => if Ascii.is_space a then trimStart r else s
  | EmptyString => EmptyString
  end.

Definition trim (s : string) : string :=
  String.rev (trimStart (String.rev (trimStart s))).

(** A reference field of a document: absent, a bare id, or a populated
    sub-document carrying its [_id]. *)
Inductive Ref :=
| RefNull
| RefId (i : ObjectId)
| RefDoc (i : ObjectId).

(** The [getId] helper repeated in the controllers. *)
Definition getId (field : Ref) : option ObjectId :=
  match field with
  | RefNull => None
  | RefDoc i => Some i
  | RefId i => Some i
  end.

(** [x === user.id] where [x] comes from [getId] and may be [null]. *)
Definition idEq (x : option ObjectId) (uid : ObjectId) : bool :=
  match x with
  | Some i => bool_decide (i = uid)
  | None => false
  end.

Inductive ProjectStatus := st_active | st_completed | st_on_hold | st_cancelled.

#[global] Instance ProjectStatus_eq_dec : EqDecision ProjectStatus.
Proof. solve_decision. Defined.

Record Project := mkProject {
  p_name : string;
  p_status : ProjectStatus;
  createdBy : Ref;
  projectLead : Ref;
  assignedDevelopers : option (list Ref);   (* [None]: the field is undefined *)
  lastModifiedBy : option ObjectId;
}.

(** The ids listed in [assignedDevelopers]. *)
Definition assignedIds (p : Project) : list ObjectId :=
  omap getId (default [] (assignedDevelopers p)).

(** ** models/User.js *)
Module User.

Record t := mk {
  username : string;
  email : string;
  password : string;                 (* the bcrypt digest *)
  role : Role;
  fullName : string;
  isActive : bool;
  lastLogin : option Z;
  mfaEnabled : bool;
  passwordChangedAt : option Z;
  loginAttempts : Z;
  lockUntil : option Z;
}.

Definition with_email (v : string) (u : t) : t :=
  mk (username u) v (password u) (role u) (fullName u) (isActive u)
     (lastLogin u) (mfaEnabled u) (passwordChangedAt u) (loginAttempts u) (lockUntil u).
Definition with_password (v : string) (u : t) : t :=
  mk (username u) (email u) v (role u) (fullName u) (isActive u)
     (lastLogin u) (mfaEnabled u) (passwordChangedAt u) (loginAttempts u) (lockUntil u).
Definition with_role (v : Role) (u : t) : t :=
  mk (username u) (email u) (password u) v (fullName u) (isActive u)
     (lastLogin u) (mfaEnabled u) (passwordChangedAt u) (loginAttempts u) (lockUntil u).
Definition with_fullName (v : string) (u : t) : t :=
  mk (username u) (email u) (password u) (role u) v (isActive u)
     (lastLogin u) (mfaEnabled u) (passwordChangedAt u) (loginAttempts u) (lockUntil u).
Definition with_isActive (v : bool) (u : t) : t :=
  mk (username u) (email u) (password u) (role u) (fullName u) v
     (lastLogin u) (mfaEnabled u) (passwordChangedAt u) (loginAttempts u) (lockUntil u).
Definition with_lastLogin (v : option Z) (u : t) : t :=
  mk (username u) (email u) (password u) (role u) (fullName u) (isActive u)
     v (mfaEnabled u) (passwordChangedAt u) (loginAttempts u) (lockUntil u).
Definition with_passwordChangedAt (v : option Z) (u : t) : t :=
  mk (username u) (email u) (password u) (role u) (fullName u) (isActive u)
     (lastLogin u) (mfaEnabled u) v (loginAttempts u) (lockUntil u).
Definition with_loginAttempts (v : Z) (u : t) : t :=
  mk (username u) (email u) (password u) (role u) (fullName u) (isActive u)
     (lastLogin u) (mfaEnabled u) (passwordChangedAt u) v (lockUntil u).
Definition with_lockUntil (v : option Z) (u : t) : t :=
  mk (username u) (email u) (password u) (role u) (fullName u) (isActive u)
     (lastLogin u) (mfaEnabled u) (passwordChangedAt u) (loginAttempts u) v.

(** [Math.floor(passwordChangedAt.getTime() / 1000)] against the token's
    [iat], which is in seconds. *)
Definition passwordChangedAfter (this : t) (jwtTimestamp : Z) : bool :=
  match passwordChangedAt this with
  | Some changed => bool_decide (jwtTimestamp < changed / 1000)
  | None => false
  end.

Definition maxAttempts : Z := 5.
Definition lockTime : Z := 2 * 60 * 60 * 1000.

(** The document after the [updateOne] issued by [incLoginAttempts]. *)
Definition incLoginAttempts (now : Z) (this : t) : t :=
  if match lockUntil this with Some l => bool_decide (l < now) | None => false end
  then with_lockUntil None (with_loginAttempts 1 this)
  else
    let inc := with_loginAttempts (loginAttempts this + 1) this in
    if bool_decide (loginAttempts this + 1 >= maxAttempts)
    then with_lockUntil (Some (now + lockTime)) inc
    else inc.

Definition resetLoginAttempts (now : Z) (this : t) : t :=
  with_lockUntil None (with_lastLogin (Some now) (with_loginAttempts 0 this)).

Definition isLocked (now : Z) (this : t) : bool :=
  match lockUntil this with
  | Some l => bool_decide (l > now)
  | None => false
  end.

End User.

(** ** controllers/projectController.js *)
Module ProjectController.

(** The Mongo filter built by [listProjects]. *)
Inductive Filter :=
| FEmpty                                   (* {} *)
| FAssigned (uid : ObjectId)               (* { assignedDevelopers: uid } *)
| FLeadOrCreator (uid : ObjectId).         (* { $or: [{projectLead}, {createdBy}] } *)

Definition listFilter (user : ReqUser) : Filter :=
  if bool_decide (role user = developer) then FAssigned (id user)
  else if bool_decide (role user = project_lead) then FLeadOrCreator (id user)
  else FEmpty.

(** Query semantics of the three filter shapes on one stored project. *)
Definition matches (f : Filter) (p : Project) : bool :=
  match f with
  | FEmpty => true
  | FAssigned uid => bool_decide (uid ∈ assignedIds p)
  | FLeadOrCreator uid => idEq (getId (projectLead p)) uid || idEq (getId (createdBy p)) uid
  end.

(** [Project.find(filter)] as run by [listProjects]. *)
Definition listProjects (user : ReqUser) (projects : gmap ObjectId Project)
  : gmap ObjectId Project :=
  filter (λ kv, matches (listFilter user) kv.2 = true) projects.

Definition hasProjectAccess (user : ReqUser) (project : Project) : bool :=
  if bool_decide (role user = admin) then true
  else if bool_decide (role user = project_lead)
          && (idEq (getId (projectLead project)) (id user)
              || idEq (getId (createdBy project)) (id user))
  then true
  else if bool_decide (role user = developer)
          && existsb (λ d, idEq d (id user))
               (default [] (map getId <$> assignedDevelopers project))
  then true
  else false.

Definition canModifyProject (user : ReqUser) (project : Project) : bool :=
  if bool_decide (role user = admin) then true
  else if bool_decide (role user = project_lead)
          && (idEq (getId (projectLead project)) (id user)
              || idEq (getId (createdBy project)) (id user))
  then true
  else false.

(** [populate] on a single reference: the referenced user document, or
    null when no user has that id. *)
Definition populateRef (users : gmap ObjectId User.t) (r : Ref) : Ref :=
  match getId r with
  | Some i => if bool_decide (is_Some (users !! i)) then RefDoc i else RefNull
  | None => RefNull
  end.

(** [populate] on an array of references: the ones that do not resolve
    are left out. *)
Definition populateRefs (users : gmap ObjectId User.t) (l : list Ref) : list Ref :=
  filter (λ r, is_Some (getId r)) (populateRef users <$> l).

Definition populate (users : gmap ObjectId User.t) (p : Project) : Project :=
  mkProject (p_name p) (p_status p) (populateRef users (createdBy p))
    (populateRef users (projectLead p)) (populateRefs users <$> assignedDevelopers p)
    (lastModifiedBy p).

(** [GET /projects/:id]; the second component is [data.project]. *)
Definition getProject (user : ReqUser) (projectId : ObjectId)
    (users : gmap ObjectId User.t) (projects : gmap ObjectId Project)
  : Response * option Project :=
  match populate users <$> projects !! projectId with
  | None => (mkResponse 404 false "Project not found", None)
  | Some project =>
      if negb (hasProjectAccess user project)
      then (mkResponse 403 false "You do not have access to this project", None)
      else (mkResponse 200 true "", Some project)
  end.

Definition deleteProject (user : ReqUser) (projectId : ObjectId)
    (projects : gmap ObjectId Project) : Response * gmap ObjectId Project :=
  match projects !! projectId with
  | None => (mkResponse 404 false "Project not found", projects)
  | Some _ =>
      if negb (bool_decide (role user = admin))
      then (mkResponse 403 false "Only admins can delete projects", projects)
      else (mkResponse 200 true "Project deleted successfully", delete projectId projects)
  end.


(** [User.find({ _id: { $in: assignedDevelopers }, role: 'developer' })]. *)
Definition findDevelopers (assignedDevelopers : list ObjectId)
    (users : gmap ObjectId User.t) : gmap ObjectId User.t :=
  filter (λ kv, kv.1 ∈ assignedDevelopers ∧ User.role kv.2 = developer) users.

(** The developer check of [createProject] and [updateProject]:
    [developers.length !== assignedDevelopers.length] is false. *)
Definition developersAccepted (assignedDevelopers : list ObjectId)
    (users : gmap ObjectId User.t) : bool :=
  bool_decide (size (findDevelopers assignedDevelopers users) = length assignedDevelopers).

End ProjectController.

(** ** utils/jwt.js, over an idealised HMAC: a token records the secret
    that signed it, and a signature verifies exactly under that secret. *)
Module Jwt.

Record Config := mkConfig {
  secret : string;
  refreshSecret : string;
  expiration : Z;           (* seconds; '15m' by default *)
  refreshExpiration : Z;    (* seconds; '7d' by default *)
}.

Definition issuer : string := "pixelforge-nexus".
Definition audience : string := "pixelforge-nexus-client".

Record AccessClaims := mkAccess {
  sub : ObjectId;
  role : Role;
  iat : Z;
  exp : Z;
  iss : string;
  aud : string;
}.

Record RefreshClaims := mkRefresh {
  r_sub : ObjectId;
  r_iat : Z;
  r_exp : Z;
  r_iss : string;
}.

Inductive Token :=
| Malformed
| SignedAccess (key : string) (c : AccessClaims)      (* type: 'access' *)
| SignedRefresh (key : string) (c : RefreshClaims).   (* type: 'refresh' *)

Definition generateAccessToken (cfg : Config) (now : Z) (userId : ObjectId) (r : Role) : Token :=
  SignedAccess (secret cfg)
    (mkAccess userId r (now / 1000) (now / 1000 + expiration cfg) issuer audience).

Definition generateRefreshToken (cfg : Config) (now : Z) (userId : ObjectId) : Token :=
  SignedRefresh (refreshSecret cfg)
    (mkRefresh userId (now / 1000) (now / 1000 + refreshExpiration cfg) issuer).

(** [jwt.verify(token, config.jwt.secret, {issuer, audience})]: signature,
    then expiry, then audience, then issuer. *)
Definition verifyAccessToken (cfg : Config) (now : Z) (token : Token) : string + AccessClaims :=
  match token with
  | Malformed => inl "Invalid access token"
  | SignedAccess key c =>
      if negb (bool_decide (key = secret cfg)) then inl "Invalid access token"
      else if bool_decide (now / 1000 >= exp c) then inl "Access token has expired"
      else if negb (bool_decide (aud c = audience)) then inl "Invalid access token"
      else if negb (bool_decide (iss c = issuer)) then inl "Invalid access token"
      else inr c
  | SignedRefresh key c =>
      (* a refresh payload has no [aud] claim, so the audience check fails *)
      if negb (bool_decide (key = secret cfg)) then inl "Invalid access token"
      else if bool_decide (now / 1000 >= r_exp c) then inl "Access token has expired"
      else inl "Invalid access token"
  end.

(** [jwt.verify(token, config.jwt.refreshSecret, {issuer})]; only [sub]
    of the payload is read by the caller. *)
Definition verifyRefreshToken (cfg : Config) (now : Z) (token : Token) : string + ObjectId :=
  match token with
  | Malformed => inl "Invalid refresh token"
  | SignedRefresh key c =>
      if negb (bool_decide (key = refreshSecret cfg)) then inl "Invalid refresh token"
      else if bool_decide (now / 1000 >= r_exp c) then inl "Refresh token has expired"
      else if negb (bool_decide (r_iss c = issuer)) then inl "Invalid refresh token"
      else inr (r_sub c)
  | SignedAccess key c =>
      if negb (bool_decide (key = refreshSecret cfg)) then inl "Invalid refresh token"
      else if bool_decide (now / 1000 >= exp c) then inl "Refresh token has expired"
      else if negb (bool_decide (iss c = issuer)) then inl "Invalid refresh token"
      else inr (sub c)
  end.

End Jwt.

(** ** middleware/auth.js *)
Module AuthMiddleware.

(** The [Authorization] header, when present. *)
Inductive AuthHeader :=
| Bearer (token : Jwt.Token)      (* starts with "Bearer " *)
| OtherScheme (raw : string).

(** [inl r]: the middleware answered [r]; [inr u]: [req.user = u; next()]. *)
Definition authenticate (cfg : Jwt.Config) (now : Z) (authHeader : option AuthHeader)
    (users : gmap ObjectId User.t) : Response + ReqUser :=
  match authHeader with
  | Some (Bearer token) =>
      match Jwt.verifyAccessToken cfg now token with
      | inl msg => inl (mkResponse 401 false msg)
      | inr payload =>
          match users !! Jwt.sub payload with
          | Some user =>
              if negb (User.isActive user)
              then inl (mkResponse 401 false "User not found or account is inactive")
              else if User.passwordChangedAfter user (Jwt.iat payload)
              then inl (mkResponse 401 false "Password recently changed. Please login again.")
              else inr (mkReqUser (Jwt.sub payload) (Jwt.role payload) (User.email user))
          | None => inl (mkResponse 401 false "User not found or account is inactive")
          end
      end
  | _ => inl (mkResponse 401 false "No authentication token provided")
  end.

Definition join (sep : string) (l : list string) : string :=
  match l with
  | [] => ""
  | x :: r => fold_left (λ acc y, acc +:+ sep +:+ y) r x
  end.

(** [authorize(...allowedRoles)]: [None] is [next()]. *)
Definition authorize (allowedRoles : list Role) (req_user : option ReqUser) : option Response :=
  match req_user with
  | None => Some (mkResponse 401 false "Authentication required")
  | Some u =>
      if negb (bool_decide (role u ∈ allowedRoles))
      then Some (mkResponse 403 false
                   ("Access denied. Required roles: " +:+ join ", " (role_name <$> allowedRoles)))
      else None
  end.

(** A protected route: [authenticate] then [authorize(...allowedRoles)];
    [inr u] means the handler runs with [req.user = u]. *)
Definition roleGate (cfg : Jwt.Config) (now : Z) (allowedRoles : list Role)
    (authHeader : option AuthHeader) (users : gmap ObjectId User.t) : Response + ReqUser :=
  match authenticate cfg now authHeader users with
  | inl r => inl r
  | inr u =>
      match authorize allowedRoles (Some u) with
      | Some r => inl r
      | None => inr u
      end
  end.

(** [optionalAuth]: always calls [next()]; the result is [req.user]. *)
Definition optionalAuth (cfg : Jwt.Config) (now : Z) (authHeader : option AuthHeader)
    (users : gmap ObjectId User.t) : option ReqUser :=
  match authHeader with
  | Some (Bearer token) =>
      match Jwt.verifyAccessToken cfg now token with
      | inl _ => None
      | inr payload =>
          match users !! Jwt.sub payload with
          | Some user =>
              if User.isActive user
              then Some (mkReqUser (Jwt.sub payload) (Jwt.role payload) (User.email user))
              else None
          | None => None
          end
      end
  | _ => None
  end.

(** [checkAccountLock]: [None] is [next()]. *)
Definition checkAccountLock (now : Z) (req_user : option ReqUser)
    (users : gmap ObjectId User.t) : option Response :=
  match req_user with
  | None => None
  | Some u =>
      match users !! id u with
      | Some user =>
          if User.isLocked now user
          then Some (mkResponse 403 false
                       "Account is locked due to too many failed login attempts. Please try again later.")
          else None
      | None => None
      end
  end.

End AuthMiddleware.

(** ** controllers/authController.js *)
Module AuthController.

(** What a login answer carries besides status and message. *)
Inductive LoginData :=
| NoData
| MfaRequired (tempToken : Jwt.Token)
| Tokens (accessToken refreshToken : Jwt.Token).

(** The query [{ $or: [{ username }, { email: username }] }] on one document. *)
Definition matchesLogin (username : string) (u : User.t) : bool :=
  bool_decide (User.username u = username) || bool_decide (User.email u = username).

(** [User.findOne(...)]: the first match in the collection's order. *)
Definition findOne (username : string) (users : gmap ObjectId User.t)
  : option (ObjectId * User.t) :=
  find (λ kv, matchesLogin username kv.2) (map_to_list users).

Section WithBcrypt.

(** [bcryptjs.compare(candidate, digest)] and [bcryptjs.hash]. *)
Variable bcrypt_compare : string → string → bool.
Variable bcrypt_hash : string → string.

Definition verifyPassword (this : User.t) (candidatePassword : string) : bool :=
  bcrypt_compare candidatePassword (User.password this).

(** [POST /auth/login].  The request is taken at one instant [now], which
    stands for every reading of the clock that it makes: in [isLocked],
    in [incLoginAttempts] and [resetLoginAttempts] after the password
    comparison, and in the [iat] of the tokens. *)
Definition login (cfg : Jwt.Config) (now : Z) (username password : string)
    (users : gmap ObjectId User.t)
  : Response * LoginData * gmap ObjectId User.t :=
  match findOne username users with
  | None => (mkResponse 401 false "Invalid username or password", NoData, users)
  | Some (_id, user) =>
      if User.isLocked now user
      then (mkResponse 403 false
              "Account is locked due to too many failed login attempts. Please try again later.",
            NoData, users)
      else if negb (User.isActive user)
      then (mkResponse 403 false "Account has been deactivated", NoData, users)
      else if negb (verifyPassword user password)
      then (mkResponse 401 false "Invalid username or password", NoData,
            <[_id := User.incLoginAttempts now user]> users)
      else if User.mfaEnabled user
      then (mkResponse 200 true "MFA verification required",
            MfaRequired (Jwt.generateAccessToken cfg now _id (User.role user)), users)
      else (mkResponse 200 true "Login successful",
            Tokens (Jwt.generateAccessToken cfg now _id (User.role user))
                   (Jwt.generateRefreshToken cfg now _id),
            <[_id := User.resetLoginAttempts now user]> users)
  end.

(** [PUT /auth/change-password], behind [authenticate].  [user.save()]
    validates the new password ([required], [minlength: 8]) and the
    pre-save hook hashes it and stamps [passwordChangedAt] when the
    field was modified. *)
Definition changePassword (now : Z) (req_user : ReqUser)
    (oldPassword newPassword confirmPassword : option string)
    (users : gmap ObjectId User.t) : Response * gmap ObjectId User.t :=
  if negb (bool_decide (newPassword = confirmPassword))
  then (mkResponse 400 false "Passwords do not match", users)
  else
    match users !! id req_user with
    | None => (mkResponse 404 false "User not found", users)
    | Some user =>
        match oldPassword with
        | None => (internalError, users)         (* compare throws on a missing candidate *)
        | Some old =>
            if negb (verifyPassword user old)
            then (mkResponse 401 false "Old password is incorrect", users)
            else
              match newPassword with
              | None => (internalError, users)   (* required validator *)
              | Some new =>
                  if bool_decide (new = User.password user)
                  then (mkResponse 200 true "Password changed successfully", users)
                  else if bool_decide (Z.of_nat (String.length new) < 8)
                  then (internalError, users)    (* minlength validator *)
                  else (mkResponse 200 true "Password changed successfully",
                        <[id req_user :=
                            User.with_passwordChangedAt (Some now)
                              (User.with_password (bcrypt_hash new) user)]> users)
              end
        end
    end.

End WithBcrypt.

(** [POST /auth/refresh-token]; the second component is [data.accessToken]. *)
Definition refreshToken (cfg : Jwt.Config) (now : Z) (refreshToken : option Jwt.Token)
    (users : gmap ObjectId User.t) : Response * option Jwt.Token :=
  match refreshToken with
  | None => (mkResponse 400 false "Refresh token is required", None)
  | Some token =>
      match Jwt.verifyRefreshToken cfg now token with
      | inl msg => (mkResponse 401 false msg, None)
      | inr sub =>
          match users !! sub with
          | Some user =>
              if negb (User.isActive user)
              then (mkResponse 401 false "User not found or account is inactive", None)
              else (mkResponse 200 true "Token refreshed successfully",
                    Some (Jwt.generateAccessToken cfg now sub (User.role user)))
          | None => (mkResponse 401 false "User not found or account is inactive", None)
          end
      end
  end.

End AuthController.

(** ** controllers/userController.js, mounted behind
    [authenticate, authorize('admin')] *)
Module UserController.

Record UpdateBody := mkUpdateBody {
  b_fullName : option string;
  b_email : option string;
  b_role : option string;
  b_isActive : option bool;
  b_password : option string;
}.

(** JavaScript truthiness of an optional string. *)
Definition truthy (s : option string) : bool :=
  match s with
  | Some v => negb (bool_decide (v = ""))
  | None => false
  end.

Section WithValidators.

(** The [email] format validator of the schema and
    [String.prototype.toLowerCase], used by the [lowercase] setter. *)
Variable emailFormatOk : string → bool.
Variable toLowerCase : string → string.

(** [updateData] after casting: the schema setters ([trim], [lowercase])
    are applied to the values of the update. *)
Definition castFullName (body : UpdateBody) : option string :=
  if truthy (b_fullName body) then trim <$> b_fullName body else None.

Definition castEmail (body : UpdateBody) : option string :=
  if truthy (b_email body) then (λ e, toLowerCase (trim e)) <$> b_email body else None.

Definition castRole (body : UpdateBody) : option Role :=
  b_role body ≫= parse_role.

(** [updateData], as a function applied to the stored document. *)
Definition applyUpdate (body : UpdateBody) (u : User.t) : User.t :=
  let u1 := match castFullName body with Some v => User.with_fullName v u | None => u end in
  let u2 := match castEmail body with Some v => User.with_email v u1 | None => u1 end in
  let u3 := match castRole body with Some v => User.with_role v u2 | None => u2 end in
  match b_isActive body with
  | Some a => User.with_isActive a u3
  | None => u3
  end.

(** The validators that [runValidators: true] applies to the updated
    paths: [fullName] is required with at most 100 characters, [email] is
    required and must have the e-mail format. *)
Definition updateValid (body : UpdateBody) : bool :=
  match castFullName body with
  | Some v => negb (bool_decide (v = "")) && bool_decide (Z.of_nat (String.length v) <= 100)
  | None => true
  end
  && match castEmail body with
     | Some v => negb (bool_decide (v = "")) && emailFormatOk v
     | None => true
     end.

(** The unique index on [email]. *)
Definition emailTaken (target : ObjectId) (e : string) (users : gmap ObjectId User.t) : bool :=
  bool_decide (map_Exists (λ k u, k ≠ target ∧ User.email u = e) users).

Definition updateUser (req_user : ReqUser) (target : ObjectId) (body : UpdateBody)
    (users : gmap ObjectId User.t) : Response * gmap ObjectId User.t :=
  if truthy (b_password body)
  then (mkResponse 400 false
          "Cannot update password through this endpoint. Use /change-password", users)
  else if negb (updateValid body)
  then (mkResponse 400 false "Validation error", users)
  else
    match users !! target with
    | None => (mkResponse 404 false "User not found", users)
    | Some user =>
        if match castEmail body with
           | Some e => emailTaken target e users
           | None => false
           end
        then (internalError, users)            (* duplicate key on the unique index *)
        else (mkResponse 200 true "User updated successfully",
              <[target := applyUpdate body user]> users)
    end.

End WithValidators.

Definition deleteUser (req_user : ReqUser) (target : ObjectId)
    (users : gmap ObjectId User.t) : Response * gmap ObjectId User.t :=
  if bool_decide (id req_user = target)
  then (mkResponse 400 false "Cannot delete your own account", users)
  else
    match users !! target with
    | None => (mkResponse 404 false "User not found", users)
    | Some _ => (mkResponse 200 true "User deleted successfully", delete target users)
    end.

Definition deactivateUser (req_user : ReqUser) (target : ObjectId)
    (users : gmap ObjectId User.t) : Response * gmap ObjectId User.t :=
  if bool_decide (id req_user = target)
  then (mkResponse 400 false "Cannot deactivate your own account", users)
  else
    match users !! target with
    | None => (mkResponse 404 false "User not found", users)
    | Some user =>
        (mkResponse 200 true "User account deactivated successfully",
         <[target := User.with_isActive false user]> users)
    end.

Section WithBcryptHash.

Variable bcrypt_hash : string → string.

(** [POST /users/:id/reset-password].  The user is loaded without its
    [password] (the field is [select: false]), so the assignment always
    marks it modified: the pre-save hook hashes the temporary password and
    stamps [passwordChangedAt]. *)
Definition resetUserPassword (now : Z) (req_user : ReqUser) (target : ObjectId)
    (tempPassword : option string) (users : gmap ObjectId User.t)
  : Response * gmap ObjectId User.t :=
  match tempPassword with
  | None => (mkResponse 400 false "Temporary password must be at least 8 characters", users)
  | Some temp =>
      if bool_decide (Z.of_nat (String.length temp) < 8)
      then (mkResponse 400 false "Temporary password must be at least 8 characters", users)
      else
        match users !! target with
        | None => (mkResponse 404 false "User not found", users)
        | Some user =>
            (mkResponse 200 true "Password reset successfully",
             <[target := User.with_passwordChangedAt (Some now)
                           (User.with_password (bcrypt_hash temp) user)]> users)
        end
  end.

End WithBcryptHash.

End UserController.

(** ** models/Message.js and controllers/messageController.js *)
Inductive MessageType :=
| mt_message | mt_completion_request | mt_completion_approved | mt_completion_rejected.

#[global] Instance MessageType_eq_dec : EqDecision MessageType.
Proof. solve_decision. Defined.

(** The [type] enum validator of the message schema. *)
Definition parse_messageType (s : string) : option MessageType :=
  if bool_decide (s = "message") then Some mt_message
  else if bool_decide (s = "completion-request") then Some mt_completion_request
  else if bool_decide (s = "completion-approved") then Some mt_completion_approved
  else if bool_decide (s = "completion-rejected") then Some mt_completion_rejected
  else None.

Record Message := mkMessage {
  m_project : ObjectId;
  sender : ObjectId;
  content : string;
  type : MessageType;
  reviewedBy : option ObjectId;
  reviewedAt : option Z;
  reviewResponse : option string;
}.

Module MessageController.

Definition hasProjectAccess (user : ReqUser) (project : Project) : bool :=
  if bool_decide (role user = admin) then true
  else if bool_decide (role user = project_lead)
          && (idEq (getId (projectLead project)) (id user)
              || idEq (getId (createdBy project)) (id user))
  then true
  else if bool_decide (role user = developer)
          && existsb (λ d, idEq d (id user))
               (default [] (map getId <$> assignedDevelopers project))
  then true
  else false.

(** The query [{ project, type: 'completion-request', reviewedBy: null }]. *)
Definition isPending (projectId : ObjectId) (m : Message) : Prop :=
  m_project m = projectId ∧ type m = mt_completion_request ∧ reviewedBy m = None.

#[global] Instance isPending_dec projectId m : Decision (isPending projectId m).
Proof. unfold isPending. apply _. Defined.

Definition pendingRequest (projectId : ObjectId) (messages : gmap ObjectId Message) : bool :=
  bool_decide (map_Exists (λ _ m, isPending projectId m) messages).

(** [newId] is the [_id] the driver draws for the new document. *)
Definition sendMessage (req_user : ReqUser) (projectId : ObjectId)
    (b_content b_type : option string) (newId : ObjectId)
    (projects : gmap ObjectId Project) (messages : gmap ObjectId Message)
  : Response * gmap ObjectId Message :=
  let type := default "message" b_type in
  match b_content with
  | None => (mkResponse 400 false "Message content is required", messages)
  | Some content =>
      if bool_decide (content = "") || bool_decide (String.length (trim content) = 0%nat)
      then (mkResponse 400 false "Message content is required", messages)
      else
        match projects !! projectId with
        | None => (mkResponse 404 false "Project not found", messages)
        | Some project =>
            if negb (hasProjectAccess req_user project)
            then (mkResponse 403 false "You do not have access to this project", messages)
            else if bool_decide (type = "completion-request")
                    && negb (bool_decide (role req_user = developer))
            then (mkResponse 403 false "Only developers can request project completion",
                  messages)
            else if bool_decide (type = "completion-request")
                    && pendingRequest projectId messages
            then (mkResponse 400 false
                    "There is already a pending completion request for this project",
                  messages)
            else
              (* message.save(): schema validation, then the insert *)
              match parse_messageType type with
              | None => (internalError, messages)
              | Some ty =>
                  if bool_decide (2000 < Z.of_nat (String.length (trim content)))
                  then (internalError, messages)
                  else
                    match messages !! newId with
                    | Some _ => (internalError, messages)
                    | None =>
                        (mkResponse 201 true "Message sent successfully",
                         <[newId := mkMessage projectId (id req_user) (trim content) ty
                                      None None None]> messages)
                    end
              end
        end
  end.

Definition reviewed (now : Z) (req_user : ReqUser) (approved : bool)
    (response : option string) (m : Message) : Message :=
  mkMessage (m_project m) (sender m) (content m)
    (if approved then mt_completion_approved else mt_completion_rejected)
    (Some (id req_user)) (Some now) (Some (default "" response)).

Definition completed (req_user : ReqUser) (p : Project) : Project :=
  mkProject (p_name p) st_completed (createdBy p) (projectLead p)
    (assignedDevelopers p) (Some (id req_user)).

Definition reviewCompletionRequest (now : Z) (req_user : ReqUser) (messageId : ObjectId)
    (approved : bool) (response : option string)
    (projects : gmap ObjectId Project) (messages : gmap ObjectId Message)
  : Response * gmap ObjectId Project * gmap ObjectId Message :=
  if negb (bool_decide (role req_user ∈ [admin; project_lead]))
  then (mkResponse 403 false "Only admins and project leads can review completion requests",
        projects, messages)
  else
    match messages !! messageId with
    | None => (mkResponse 404 false "Message not found", projects, messages)
    | Some message =>
        if negb (bool_decide (type message = mt_completion_request))
        then (mkResponse 400 false "This message is not a completion request",
              projects, messages)
        else if bool_decide (is_Some (reviewedBy message))
        then (mkResponse 400 false "This completion request has already been reviewed",
              projects, messages)
        else
          (* hasProjectAccess(req.user, project): the admin shortcut answers
             before the project is read; otherwise a missing project throws *)
          match (if bool_decide (role req_user = admin) then Some true
                 else hasProjectAccess req_user <$> projects !! m_project message) with
          | None => (internalError, projects, messages)
          | Some false =>
              (mkResponse 403 false "You do not have access to this project",
               projects, messages)
          | Some true =>
              if bool_decide (1000 < Z.of_nat (String.length (default "" response)))
              then (internalError, projects, messages)   (* maxlength validator *)
              else
                (mkResponse 200 true
                   (if approved then "Project marked as completed"
                    else "Completion request rejected"),
                 (if approved then alter (completed req_user) (m_project message) projects
                  else projects),
                 <[messageId := reviewed now req_user approved response message]> messages)
          end
    end.

(** [GET /messages/completion-requests].  The answer is given as the
    collection of the documents found; [sort] only fixes their order. *)
Definition getPendingCompletionRequests (req_user : ReqUser)
    (projects : gmap ObjectId Project) (messages : gmap ObjectId Message)
  : Response * gmap ObjectId Message :=
  if negb (bool_decide (role req_user ∈ [admin; project_lead]))
  then (mkResponse 403 false "Access denied", ∅)
  else
    let userProjects :=
      filter (λ kv, idEq (getId (projectLead kv.2)) (id req_user)
                    || idEq (getId (createdBy kv.2)) (id req_user) = true) projects in
    (mkResponse 200 true "",
     filter (λ kv, (role req_user = project_lead → is_Some (userProjects !! m_project kv.2))
                   ∧ type kv.2 = mt_completion_request
                   ∧ reviewedBy kv.2 = None) messages).

End MessageController.

(** ** models/Document.js and controllers/documentController.js *)
Inductive Classification := cl_public | cl_internal | cl_confidential | cl_secret.

#[global] Instance Classification_eq_dec : EqDecision Classification.
Proof. solve_decision. Defined.

Definition classification_name (c : Classification) : string :=
  match c with
  | cl_public => "public"
  | cl_internal => "internal"
  | cl_confidential => "confidential"
  | cl_secret => "secret"
  end.

(** The [classification] enum validator of the document schema:
    [['public', 'internal', 'confidential', 'secret']]. *)
Definition parse_classification (s : string) : option Classification :=
  if bool_decide (s = "public") then Some cl_public
  else if bool_decide (s = "internal") then Some cl_internal
  else if bool_decide (s = "confidential") then Some cl_confidential
  else if bool_decide (s = "secret") then Some cl_secret
  else None.

(** One element of [accessibleBy]; neither field is required by the schema. *)
Record AccessEntry := mkAccessEntry {
  userId : option ObjectId;
  a_role : option Role;
}.

Record AccessLogEntry := mkAccessLogEntry {
  l_userId : ObjectId;
  l_action : string;
  l_accessedAt : Z;
}.

Record Document := mkDocument {
  fileName : string;
  originalFileName : string;
  filePath : string;
  cloudinaryPublicId : option string;
  cloudinaryUrl : option string;
  storageType : string;
  fileSize : Z;
  mimeType : string;
  d_project : ObjectId;
  uploadedBy : ObjectId;
  accessibleBy : list AccessEntry;
  classification : Classification;
  checksum : string;
  accessLog : list AccessLogEntry;
}.

Definition allowedMimeTypes : list string :=
  [ "application/pdf";
    "application/msword";
    "application/vnd.openxmlformats-officedocument.wordprocessingml.document";
    "text/plain";
    "application/vnd.ms-excel";
    "application/vnd.openxmlformats-officedocument.spreadsheetml.sheet";
    "application/vnd.ms-powerpoint";
    "application/vnd.openxmlformats-officedocument.presentationml.presentation" ].

Module DocumentController.

(** [config.maxFileSize] and [config.allowedFileTypes]. *)
Record Config := mkConfig {
  maxFileSize : Z;
  allowedFileTypes : list string;
}.

Definition defaultConfig : Config := mkConfig 5242880 ["pdf"; "doc"; "docx"; "txt"].

(** [req.file] as multer hands it over. *)
Record File := mkFile {
  originalname : string;
  size : Z;
  mimetype : string;
}.

(** What the request gets from outside the process: the randomised
    stored name, the digest of the buffer, the Cloudinary answer
    ([None] when the upload is rejected) and the fresh [_id]. *)
Record UploadEnv := mkUploadEnv {
  sanitizedName : string;
  fileChecksum : string;
  cloudinaryResult : option (string * string);    (* secure_url, public_id *)
  newId : ObjectId;
}.

Definition canAccessProject (user : ReqUser) (project : Project) : bool :=
  if bool_decide (role user = admin) then true
  else if bool_decide (role user = project_lead)
          && (idEq (getId (projectLead project)) (id user)
              || idEq (getId (createdBy project)) (id user))
  then true
  else if bool_decide (role user = developer)
          && existsb (λ dev, idEq (getId dev) (id user))
               (default [] (assignedDevelopers project))
  then true
  else false.

Definition canUploadToProject (user : ReqUser) (project : Project) : bool :=
  if bool_decide (role user = admin) then true
  else if bool_decide (role user = project_lead)
          && (idEq (getId (projectLead project)) (id user)
              || idEq (getId (createdBy project)) (id user))
  then true
  else false.

(** [accessibleBy.some(access => access.userId.toString() === uid)];
    [None] is the [TypeError] raised on an entry without [userId]. *)
Fixpoint someAccess (uid : ObjectId) (l : list AccessEntry) : option bool :=
  match l with
  | [] => Some false
  | access :: rest =>
      match userId access with
      | None => None
      | Some i => if bool_decide (i = uid) then Some true else someAccess uid rest
      end
  end.

Definition canAccessDocument (user : ReqUser) (document : Document) : option bool :=
  if bool_decide (role user = admin) then Some true
  else someAccess (id user) (accessibleBy document).

(** The list built by [uploadDocument] from the parent project. *)
Definition buildAccessibleBy (project : Project) : list AccessEntry :=
  (match getId (projectLead project) with
   | Some lead => [mkAccessEntry (Some lead) (Some project_lead)]
   | None => []
   end)
  ++ (match assignedDevelopers project with
      | Some devs => map (λ devId, mkAccessEntry (getId devId) (Some developer)) devs
      | None => []
      end).

(** [v.split('.').pop()]. *)
Fixpoint lastSegment (acc : string) (v : string) : string :=
  match v with
  | EmptyString => String.rev acc
  | String a r =>
      if bool_decide (a = "."%char) then lastSegment EmptyString r
      else lastSegment (String a acc) r
  end.

Section WithPath.

(** [path.extname] and [String.prototype.toLowerCase]. *)
Variable extname : string → string.
Variable toLowerCase : string → string.

(** [slice(1)]. *)
Definition slice1 (s : string) : string :=
  match s with
  | String _ r => r
  | EmptyString => EmptyString
  end.

(** [validateUploadFile]: [None] when the file passes, otherwise the
    message of the error thrown (without the byte count of the first). *)
Definition validateUploadFile (config : Config) (file : File) : option string :=
  if bool_decide (size file > maxFileSize config)
  then Some "File size exceeds maximum allowed"
  else
    let ext := toLowerCase (slice1 (extname (originalname file))) in
    if negb (bool_decide (ext ∈ allowedFileTypes config))
    then Some ("File type ." +:+ ext +:+ " is not allowed")
    else if negb (bool_decide (mimetype file ∈ allowedMimeTypes))
    then Some ("MIME type " +:+ mimetype file +:+ " is not allowed")
    else None.

(** The validators of the document schema that [save()] runs on a new
    document, and the unique index on [filePath]. *)
Definition schemaValid (d : Document) : bool :=
  bool_decide (toLowerCase (lastSegment EmptyString (fileName d))
                 ∈ ["pdf"; "doc"; "docx"; "txt"; "xlsx"; "xls"; "pptx"])
  && bool_decide (fileSize d <= 5242880)
  && bool_decide (mimeType d ∈ allowedMimeTypes).

Definition filePathTaken (path : string) (documents : gmap ObjectId Document) : bool :=
  bool_decide (map_Exists (λ _ d, filePath d = path) documents).

Definition uploadDocument (config : Config) (env : UploadEnv) (req_user : ReqUser)
    (projectId : ObjectId) (req_file : option File) (b_classification : option string)
    (projects : gmap ObjectId Project) (documents : gmap ObjectId Document)
  : Response * gmap ObjectId Document :=
  match req_file with
  | None => (mkResponse 400 false "No file provided", documents)
  | Some file =>
      match projects !! projectId with
      | None => (mkResponse 404 false "Project not found", documents)
      | Some project =>
          if negb (canUploadToProject req_user project)
          then (mkResponse 403 false
                  "You do not have permission to upload documents to this project",
                documents)
          else
            match validateUploadFile config file with
            | Some msg => (mkResponse 400 false msg, documents)
            | None =>
                match cloudinaryResult env with
                | None => (mkResponse 500 false "Failed to upload file to cloud storage",
                           documents)
                | Some (secure_url, public_id) =>
                    let cls := match b_classification with
                               | Some c => if bool_decide (c = "") then "internal" else c
                               | None => "internal"
                               end in
                    match parse_classification cls with
                    | None => (internalError, documents)
                    | Some c =>
                        let document :=
                          mkDocument (sanitizedName env) (originalname file) secure_url
                            (Some public_id) (Some secure_url) "cloudinary"
                            (size file) (mimetype file) projectId (id req_user)
                            (buildAccessibleBy project) c (fileChecksum env) [] in
                        if negb (schemaValid document)
                           || filePathTaken secure_url documents
                           || bool_decide (is_Some (documents !! newId env))
                        then (internalError, documents)
                        else (mkResponse 201 true "Document uploaded successfully",
                              <[newId env := document]> documents)
                    end
                end
            end
      end
  end.

End WithPath.

Definition logAccess (now : Z) (uid : ObjectId) (action : string) (d : Document) : Document :=
  mkDocument (fileName d) (originalFileName d) (filePath d) (cloudinaryPublicId d)
    (cloudinaryUrl d) (storageType d) (fileSize d) (mimeType d) (d_project d)
    (uploadedBy d) (accessibleBy d) (classification d) (checksum d)
    (accessLog d ++ [mkAccessLogEntry uid action now]).

(** The gate shared by [viewDocument] and [downloadDocument]; on success
    the caller answers 200 with the metadata, or redirects (302). *)
Definition readDocument (okStatus : Z) (action : string) (now : Z) (req_user : ReqUser)
    (docId : ObjectId) (documents : gmap ObjectId Document)
  : Response * gmap ObjectId Document :=
  match documents !! docId with
  | None => (mkResponse 404 false "Document not found", documents)
  | Some document =>
      match canAccessDocument req_user document with
      | None => (internalError, documents)
      | Some false =>
          (mkResponse 403 false "You do not have access to this document", documents)
      | Some true =>
          (mkResponse okStatus true "",
           <[docId := logAccess now (id req_user) action document]> documents)
      end
  end.

Definition viewDocument := readDocument 200 "viewed".
Definition downloadDocument := readDocument 302 "downloaded".

Definition withClassification (c : Classification) (d : Document) : Document :=
  mkDocument (fileName d) (originalFileName d) (filePath d) (cloudinaryPublicId d)
    (cloudinaryUrl d) (storageType d) (fileSize d) (mimeType d) (d_project d)
    (uploadedBy d) (accessibleBy d) c (checksum d) (accessLog d).

Definition withAccessibleBy (l : list AccessEntry) (d : Document) : Document :=
  mkDocument (fileName d) (originalFileName d) (filePath d) (cloudinaryPublicId d)
    (cloudinaryUrl d) (storageType d) (fileSize d) (mimeType d) (d_project d)
    (uploadedBy d) l (classification d) (checksum d) (accessLog d).

(** An element of [req.body.accessibleBy] before the schema casts it. *)
Record AccessEntryBody := mkAccessEntryBody {
  eb_userId : option ObjectId;
  eb_role : option string;
}.

(** Casting and enum validation of a replacement access list. *)
Definition castEntry (e : AccessEntryBody) : option AccessEntry :=
  match eb_role e with
  | None => Some (mkAccessEntry (eb_userId e) None)
  | Some r => (λ r', mkAccessEntry (eb_userId e) (Some r')) <$> parse_role r
  end.

Definition allowedClassifications : list string :=
  ["public"; "internal"; "confidential"; "restricted"].

Definition updateDocument (req_user : ReqUser) (docId : ObjectId)
    (b_classification : option string) (newAccessibleBy : option (list AccessEntryBody))
    (projects : gmap ObjectId Project) (documents : gmap ObjectId Document)
  : Response * gmap ObjectId Document :=
  match documents !! docId with
  | None => (mkResponse 404 false "Document not found", documents)
  | Some document =>
      match projects !! d_project document with
      | None => (mkResponse 404 false "Associated project not found", documents)
      | Some project =>
          if negb (canUploadToProject req_user project)
          then (mkResponse 403 false
                  "You do not have permission to update documents in this project",
                documents)
          else
            let classification := match b_classification with
                                  | Some c => if bool_decide (c = "") then None else Some c
                                  | None => None
                                  end in
            if match classification with
               | Some c => negb (bool_decide (c ∈ allowedClassifications))
               | None => false
               end
            then (mkResponse 400 false "Invalid classification value", documents)
            else
              (* document.save(): the schema validates the assigned paths *)
              match (match classification with
                     | Some c => (λ c', withClassification c' document) <$> parse_classification c
                     | None => Some document
                     end) with
              | None => (internalError, documents)
              | Some document1 =>
                  match (match newAccessibleBy with
                         | Some l => (λ l', withAccessibleBy l' document1) <$> mapM castEntry l
                         | None => Some document1
                         end) with
                  | None => (internalError, documents)
                  | Some document2 =>
                      (mkResponse 200 true "Document updated successfully",
                       <[docId := document2]> documents)
                  end
              end
      end
  end.

(** [DELETE /documents/:id].  The Cloudinary deletion is attempted first
    and its failure is only logged. *)
Definition deleteDocument (req_user : ReqUser) (docId : ObjectId)
    (projects : gmap ObjectId Project) (documents : gmap ObjectId Document)
  : Response * gmap ObjectId Document :=
  match documents !! docId with
  | None => (mkResponse 404 false "Document not found", documents)
  | Some document =>
      let project := projects !! d_project document in
      let isAdmin := bool_decide (role req_user = admin) in
      let isUploader := bool_decide (uploadedBy document = id req_user) in
      let isAssignedProjectLead :=
        bool_decide (role req_user = project_lead)
        && match project with
           | Some p => idEq (getId (projectLead p)) (id req_user)
                       || idEq (getId (createdBy p)) (id req_user)
           | None => false
           end in
      if negb isAdmin && negb isUploader && negb isAssignedProjectLead
      then (mkResponse 403 false
              "Only admin, uploader, or assigned project lead can delete this document",
            documents)
      else (mkResponse 200 true "Document deleted successfully", delete docId documents)
  end.

(** The query ['accessibleBy.userId': uid]: some element carries that id. *)
Definition listedFor (uid : ObjectId) (d : Document) : Prop :=
  Some uid ∈ userId <$> accessibleBy d.

#[global] Instance listedFor_dec uid d : Decision (listedFor uid d).
Proof. unfold listedFor. apply _. Defined.

(** [GET /documents/project/:projectId].  The answer is given as the
    collection of the documents found; [sort] only fixes their order. *)
Definition listProjectDocuments (req_user : ReqUser) (projectId : ObjectId)
    (projects : gmap ObjectId Project) (documents : gmap ObjectId Document)
  : Response * gmap ObjectId Document :=
  match projects !! projectId with
  | None => (mkResponse 404 false "Project not found", ∅)
  | Some project =>
      if negb (canAccessProject req_user project)
      then (mkResponse 403 false "You do not have access to this project", ∅)
      else if bool_decide (role req_user = admin)
              || (bool_decide (role req_user = project_lead)
                  && (idEq (getId (projectLead project)) (id req_user)
                      || idEq (getId (createdBy project)) (id req_user)))
      then (mkResponse 200 true "",
            filter (λ kv, d_project kv.2 = projectId) documents)
      else (mkResponse 200 true "",
            filter (λ kv, d_project kv.2 = projectId ∧ listedFor (id req_user) kv.2)
              documents)
  end.

End DocumentController.

(** * Vocabulary of the properties *)

(** Two user collections that differ at most in the stored [role] of
    their documents. *)
Definition sameUpToRole (users1 users2 : gmap ObjectId User.t) : Prop :=
  ∀ i, User.with_role admin <$> users1 !! i = User.with_role admin <$> users2 !! i.

(** A small deployment used to run the controllers on concrete requests. *)
Module Example.

Definition cfg : Jwt.Config :=
  Jwt.mkConfig "0123456789abcdef0123456789abcdef" "fedcba9876543210fedcba9876543210"
    900 604800.

(** A stand-in for bcrypt: the digest is the secret behind a fixed prefix. *)
Definition hash (secret : string) : string := "$2a$10$" +:+ secret.
Definition compare (candidate digest : string) : bool :=
  bool_decide (digest = hash candidate).

Definition root : User.t :=
  User.mk "root@example.com" "root@example.com" (hash "RootPassword@1") admin
    "Root" true None false (Some 0) 0 None.

Definition alice : User.t :=
  User.mk "alice@example.com" "alice@example.com" (hash "OldPassword@1") developer
    "Alice" true None false (Some 0) 0 None.

(** A deactivated account and an account with MFA switched on. *)
Definition bob : User.t :=
  User.mk "bob@example.com" "bob@example.com" (hash "BobPassword@1") developer
    "Bob" false None false (Some 0) 0 None.

Definition carol : User.t :=
  User.mk "carol@example.com" "carol@example.com" (hash "CarolPassword@1") project_lead
    "Carol" true None true (Some 0) 0 None.

Definition users : gmap ObjectId User.t :=
  {[ "a1" := root; "u1" := alice; "u2" := bob; "u3" := carol ]}.

Definition rootCtx : ReqUser := mkReqUser "a1" admin "root@example.com".

Definition project : Project :=
  mkProject "Apollo" st_active (RefId "a1") (RefId "l1")
    (Some [RefId "d1"; RefId "d2"]) None.

Definition projects : gmap ObjectId Project := {[ "p1" := project ]}.

Definition document : Document :=
  mkDocument "plan_1_ab.pdf" "plan.pdf" "https://cdn.example.com/plan_1_ab" (Some "plan_1_ab")
    (Some "https://cdn.example.com/plan_1_ab") "cloudinary" 1024 "application/pdf"
    "p1" "l1"
    [mkAccessEntry (Some "l1") (Some project_lead);
     mkAccessEntry (Some "d1") (Some developer);
     mkAccessEntry (Some "d2") (Some developer)]
    cl_internal "9f86d081" [].

Definition documents : gmap ObjectId Document := {[ "doc1" := document ]}.

Definition leadCtx : ReqUser := mkReqUser "l1" project_lead "lead@example.com".
Definition devCtx : ReqUser := mkReqUser "d1" developer "d1@example.com".

(** One unreviewed completion request on the project. *)
Definition request : Message :=
  mkMessage "p1" "d1" "Ready for review" mt_completion_request None None None.

Definition messages : gmap ObjectId Message := {[ "m1" := request ]}.

End Example.

(** [uid] is the only account a login name resolves to (both [username]
    and [email] carry a unique index). *)
Definition soleMatch (name : string) (uid : ObjectId) (users : gmap ObjectId User.t) : Prop :=
  map_Forall (λ k v, AuthController.matchesLogin name v = true → k = uid) users.

#[global] Instance soleMatch_dec name uid users : Decision (soleMatch name uid users).
Proof. unfold soleMatch. apply _. Defined.

Definition invalidCredentials : Response :=
  mkResponse 401 false "Invalid username or password".

Definition lockedOut : Response :=
  mkResponse 403 false
    "Account is locked due to too many failed login attempts. Please try again later.".

(** Consecutive login requests for one name, each with its time and the
    secret presented; the answers come back in order. *)
Fixpoint loginAll (bcrypt_compare : string → string → bool) (cfg : Jwt.Config)
    (name : string) (attempts : list (Z * string)) (users : gmap ObjectId User.t)
  : list Response * gmap ObjectId User.t :=
  match attempts with
  | [] => ([], users)
  | (now, secret) :: rest =>
      let '(r, _, users1) := AuthController.login bcrypt_compare cfg now name secret users in
      let '(rs, users2) := loginAll bcrypt_compare cfg name rest users1 in
      (r :: rs, users2)
  end.

(** Two states of one account that differ at most in the lockout fields
    and [lastLogin]. *)
Definition sameAccount (u v : User.t) : Prop :=
  User.username u = User.username v ∧ User.email u = User.email v
  ∧ User.password u = User.password v ∧ User.role u = User.role v
  ∧ User.isActive u = User.isActive v ∧ User.mfaEnabled u = User.mfaEnabled v.


(** A message body that passes the presence check of [sendMessage] and
    the length validator of the schema. *)
Definition validContent (c : string) : Prop :=
  c ≠ "" ∧ String.length (trim c) ≠ 0%nat ∧ Z.of_nat (String.length (trim c)) ≤ 2000.


(** The project-lead clause shared by the access checks: the subject
    leads or created the project. *)
Definition ownsOrLeads (u : ReqUser) (p : Project) : Prop :=
  getId (projectLead p) = Some (id u) ∨ getId (createdBy p) = Some (id u).

Definition accessDenied : Response :=
  mkResponse 403 false "You do not have access to this document".

Definition staleCredential : Response :=
  mkResponse 401 false "Password recently changed. Please login again.".

(** A user document with the fields written by [login] blanked: the
    failure count, the lock and [lastLogin]. *)
Definition eraseLoginState (u : User.t) : User.t :=
  User.with_lockUntil None (User.with_lastLogin None (User.with_loginAttempts 0 u)).

(** Two user collections that differ at most in those fields. *)
Definition sameUpToLoginState (users1 users2 : gmap ObjectId User.t) : Prop :=
  ∀ i, eraseLoginState <$> users1 !! i = eraseLoginState <$> users2 !! i.

(** A user document with the fields that [updateUser] may write blanked. *)
Definition eraseProfile (u : User.t) : User.t :=
  User.with_isActive true (User.with_role admin (User.with_email "" (User.with_fullName "" u))).

(** A document with its audit trail blanked. *)
Definition eraseAccessLog (d : Document) : Document :=
  mkDocument (fileName d) (originalFileName d) (filePath d) (cloudinaryPublicId d)
    (cloudinaryUrl d) (storageType d) (fileSize d) (mimeType d) (d_project d)
    (uploadedBy d) (accessibleBy d) (classification d) (checksum d) [].

(** * Properties *)

(** ** Project access (projectController.js) *)

Lemma existsb_idEq_assigned (p : Project) (uid : ObjectId) :
  existsb (λ d, idEq d uid) (default [] (map getId <$> assignedDevelopers p)) = true
  ↔ uid ∈ assignedIds p.
Proof.
  unfold assignedIds.
  destruct (assignedDevelopers p) as [l|]; simpl.
  - rewrite existsb_exists. split.
    + intros (x & Hin & Hx). apply in_map_iff in Hin as (r & <- & Hr).
      destruct (getId r) as [i|] eqn:E; simpl in Hx; [|done].
      apply bool_decide_eq_true in Hx as ->.
      apply list_elem_of_omap. exists r. split; [by apply list_elem_of_In|done].
    + intros (r & Hr & E)%list_elem_of_omap.
      exists (Some uid). split.
      * apply in_map_iff. exists r. split; [done|by apply list_elem_of_In].
      * simpl. by apply bool_decide_eq_true.
  - split; [done|]. intros H. by apply elem_of_nil in H.
Qed.



(** C5. An admin is allowed by the read decisions whatever the resource:
    project read access, document read access (for any access list), and
    the listing filter is the empty one, which keeps every project. *)
Theorem C5_admin_supremacy (a : ReqUser) :
  role a = admin →
  (∀ p, ProjectController.hasProjectAccess a p = true)
  ∧ (∀ doc, DocumentController.canAccessDocument a doc = Some true)
  ∧ ProjectController.listFilter a = ProjectController.FEmpty
  ∧ (∀ projects, ProjectController.listProjects a projects = projects).
Proof.
  intros Ha. repeat split.
  - intros p. unfold ProjectController.hasProjectAccess. by rewrite Ha.
  - intros doc. unfold DocumentController.canAccessDocument. by rewrite Ha.
  - unfold ProjectController.listFilter. by rewrite Ha.
  - intros projects. unfold ProjectController.listProjects, ProjectController.listFilter.
    rewrite Ha. simpl. by apply map_filter_id.
Qed.

Lemma C5_admin_supremacy_witness :
  let a := mkReqUser "a1" admin "a1@example.com" in
  role a = admin
  ∧ (∀ p, ProjectController.hasProjectAccess a p = true)
  ∧ (∀ doc, DocumentController.canAccessDocument a doc = Some true)
  ∧ ProjectController.listFilter a = ProjectController.FEmpty
  ∧ (∀ projects, ProjectController.listProjects a projects = projects).
Proof.
  intros a. split; [reflexivity|].
  apply (C5_admin_supremacy a). reflexivity.
Defined.

(** ** Authentication middleware (middleware/auth.js) *)

Lemma sameUpToRole_lookup users1 users2 i :
  sameUpToRole users1 users2 →
  match users1 !! i, users2 !! i with
  | Some u1, Some u2 =>
      User.isActive u1 = User.isActive u2
      ∧ User.passwordChangedAt u1 = User.passwordChangedAt u2
      ∧ User.email u1 = User.email u2
  | None, None => True
  | _, _ => False
  end.
Proof.
  intros H. specialize (H i).
  destruct (users1 !! i) as [[]|], (users2 !! i) as [[]|]; simpl in *;
    try done; by simplify_eq.
Qed.

Lemma authenticate_role_blind cfg now hdr users1 users2 :
  sameUpToRole users1 users2 →
  AuthMiddleware.authenticate cfg now hdr users1
  = AuthMiddleware.authenticate cfg now hdr users2.
Proof.
  intros H. unfold AuthMiddleware.authenticate.
  destruct hdr as [[token|]|]; try done.
  destruct (Jwt.verifyAccessToken cfg now token) as [msg|payload]; [done|].
  pose proof (sameUpToRole_lookup _ _ (Jwt.sub payload) H) as Hl.
  destruct (users1 !! Jwt.sub payload) as [u1|], (users2 !! Jwt.sub payload) as [u2|];
    try done.
  destruct Hl as (Ha & Hp & He).
  unfold User.passwordChangedAfter. by rewrite Ha, Hp, He.
Qed.

Lemma verifyAccessToken_payload cfg now token c :
  Jwt.verifyAccessToken cfg now token = inr c →
  token = Jwt.SignedAccess (Jwt.secret cfg) c.
Proof.
  unfold Jwt.verifyAccessToken. destruct token as [|key c'|key c']; [done|..].
  - repeat case_bool_decide; simpl; try done. intros [= ->]. by subst.
  - repeat case_bool_decide; simpl; done.
Qed.

(** C10. The route-level role gate reads the role claim of the access
    token, never the stored role: when a request passes, [req.user.role]
    is the token's claim, and two runs whose user collections differ only
    in stored roles give the same verdict. *)
Theorem C10_role_gate_uses_token_role cfg now allowedRoles hdr users1 users2 :
  sameUpToRole users1 users2 →
  AuthMiddleware.roleGate cfg now allowedRoles hdr users1
  = AuthMiddleware.roleGate cfg now allowedRoles hdr users2
  ∧ (∀ u, AuthMiddleware.roleGate cfg now allowedRoles hdr users1 = inr u →
       ∃ c, hdr = Some (AuthMiddleware.Bearer (Jwt.SignedAccess (Jwt.secret cfg) c))
            ∧ role u = Jwt.role c ∧ role u ∈ allowedRoles).
Proof.
  intros H. split.
  - unfold AuthMiddleware.roleGate. by rewrite (authenticate_role_blind _ _ _ _ _ H).
  - intros u. unfold AuthMiddleware.roleGate, AuthMiddleware.authenticate.
    destruct hdr as [[token|]|]; try done.
    destruct (Jwt.verifyAccessToken cfg now token) as [msg|payload] eqn:Hv; [done|].
    apply verifyAccessToken_payload in Hv as ->.
    destruct (users1 !! Jwt.sub payload) as [u1|]; [|done].
    destruct (negb (User.isActive u1)); [done|].
    destruct (User.passwordChangedAfter u1 (Jwt.iat payload)); [done|].
    unfold AuthMiddleware.authorize. case_bool_decide as Hin; simpl; [|done].
    intros [= <-]. exists payload. by simpl in *.
Qed.

Lemma sameUpToRole_insert (users : gmap ObjectId User.t) i u r :
  sameUpToRole (<[i := u]> users) (<[i := User.with_role r u]> users).
Proof.
  intros j. destruct (decide (i = j)) as [->|Hne].
  - by rewrite !lookup_insert_eq.
  - by rewrite !lookup_insert_ne.
Qed.

Lemma C10_role_gate_uses_token_role_witness :
  let users1 := <["u1" := Example.alice]> Example.users in
  let users2 := <["u1" := User.with_role admin Example.alice]> Example.users in
  let hdr := Some (AuthMiddleware.Bearer
                     (Jwt.generateAccessToken Example.cfg 1000000 "u1" developer)) in
  sameUpToRole users1 users2
  ∧ AuthMiddleware.roleGate Example.cfg 1060000 [admin] hdr users1
    = AuthMiddleware.roleGate Example.cfg 1060000 [admin] hdr users2
  ∧ (∀ u, AuthMiddleware.roleGate Example.cfg 1060000 [admin] hdr users1 = inr u →
       ∃ c, hdr = Some (AuthMiddleware.Bearer (Jwt.SignedAccess (Jwt.secret Example.cfg) c))
            ∧ role u = Jwt.role c ∧ role u ∈ [admin]).
Proof.
  intros users1 users2 hdr.
  pose proof (sameUpToRole_insert Example.users "u1" Example.alice admin) as H.
  split; [exact H|].
  exact (C10_role_gate_uses_token_role Example.cfg 1060000 [admin] hdr users1 users2 H).
Defined.

(** The half of stale-credential invalidation that the middleware does
    implement: a verified access token whose [iat] precedes the second in
    which the password was changed is refused. *)
Lemma authenticate_stale_access_token cfg now token c u changed
    (users : gmap ObjectId User.t) :
  Jwt.verifyAccessToken cfg now token = inr c →
  users !! Jwt.sub c = Some u →
  User.isActive u = true →
  User.passwordChangedAt u = Some changed →
  Jwt.iat c < changed / 1000 →
  AuthMiddleware.authenticate cfg now (Some (AuthMiddleware.Bearer token)) users
  = inl (mkResponse 401 false "Password recently changed. Please login again.").
Proof.
  intros Hv Hu Ha Hc Hlt. unfold AuthMiddleware.authenticate.
  rewrite Hv, Hu, Ha. simpl. unfold User.passwordChangedAfter. rewrite Hc.
  by rewrite bool_decide_eq_true_2.
Qed.

(** [refreshToken] reads only [isActive] and [role] of the stored user:
    a password change leaves its answer as it was. *)
Lemma refreshToken_ignores_password_change cfg now token uid u digest changed
    (users : gmap ObjectId User.t) :
  users !! uid = Some u →
  AuthController.refreshToken cfg now token
    (<[uid := User.with_passwordChangedAt changed (User.with_password digest u)]> users)
  = AuthController.refreshToken cfg now token users.
Proof.
  intros Hu. unfold AuthController.refreshToken.
  destruct token as [token|]; [|done].
  destruct (Jwt.verifyRefreshToken cfg now token) as [msg|sub]; [done|].
  destruct (decide (uid = sub)) as [->|Hne].
  - by rewrite lookup_insert_eq, Hu.
  - by rewrite lookup_insert_ne.
Qed.

(** C2 (the code departs from it). Alice logs in at 1000 s and gets an
    access and a refresh token; she changes her password at 1060 s.  At
    1120 s the old access token is refused as stale, but the old refresh
    token is still answered 200 with a new access token, which
    [authenticate] then accepts. *)
Theorem C2_refresh_token_survives_password_change :
  ∃ access0 refresh0 users1 me r1 users2 access1 me',
    AuthController.login Example.compare Example.cfg 1000000
      "alice@example.com" "OldPassword@1" Example.users
    = (mkResponse 200 true "Login successful", AuthController.Tokens access0 refresh0, users1)
    ∧ AuthMiddleware.authenticate Example.cfg 1060000
        (Some (AuthMiddleware.Bearer access0)) users1 = inr me
    ∧ AuthController.changePassword Example.compare Example.hash 1060000 me
        (Some "OldPassword@1") (Some "NewPassword@2") (Some "NewPassword@2") users1
      = (r1, users2)
    ∧ status r1 = 200
    ∧ (User.passwordChangedAt <$> users2 !! "u1") = Some (Some 1060000)
    ∧ AuthMiddleware.authenticate Example.cfg 1120000
        (Some (AuthMiddleware.Bearer access0)) users2
      = inl (mkResponse 401 false "Password recently changed. Please login again.")
    ∧ AuthController.refreshToken Example.cfg 1120000 (Some refresh0) users2
      = (mkResponse 200 true "Token refreshed successfully", Some access1)
    ∧ AuthMiddleware.authenticate Example.cfg 1120000
        (Some (AuthMiddleware.Bearer access1)) users2 = inr me'.
Proof.
  do 8 eexists. repeat split; vm_compute; reflexivity.
Qed.

(** ** User management (controllers/userController.js) *)

Lemma deleteUser_self_rejected (a : ReqUser) (users : gmap ObjectId User.t) :
  UserController.deleteUser a (id a) users
  = (mkResponse 400 false "Cannot delete your own account", users).
Proof. unfold UserController.deleteUser. by rewrite bool_decide_eq_true_2. Qed.

Lemma deactivateUser_self_rejected (a : ReqUser) (users : gmap ObjectId User.t) :
  UserController.deactivateUser a (id a) users
  = (mkResponse 400 false "Cannot deactivate your own account", users).
Proof. unfold UserController.deactivateUser. by rewrite bool_decide_eq_true_2. Qed.

(** [updateUser] never compares [req.user.id] with the target: whoever the
    caller is, a valid role in the body is written to the target. *)
Lemma updateUser_writes_role emailFormatOk toLowerCase (a : ReqUser) (target : ObjectId)
    (r : Role) (u : User.t) (users : gmap ObjectId User.t) :
  users !! target = Some u →
  UserController.updateUser emailFormatOk toLowerCase a target
    (UserController.mkUpdateBody None None (Some (role_name r)) None None) users
  = (mkResponse 200 true "User updated successfully",
     <[target := User.with_role r u]> users).
Proof.
  intros Hu. unfold UserController.updateUser. simpl. rewrite Hu. simpl.
  unfold UserController.applyUpdate. simpl. by destruct r.
Qed.

Lemma updateUser_writes_isActive emailFormatOk toLowerCase (a : ReqUser) (target : ObjectId)
    (b : bool) (u : User.t) (users : gmap ObjectId User.t) :
  users !! target = Some u →
  UserController.updateUser emailFormatOk toLowerCase a target
    (UserController.mkUpdateBody None None None (Some b) None) users
  = (mkResponse 200 true "User updated successfully",
     <[target := User.with_isActive b u]> users).
Proof. intros Hu. unfold UserController.updateUser. simpl. by rewrite Hu. Qed.

(** C1 (the code departs from it). The admin [a1] sends
    [PUT /users/a1] with [{role: 'developer'}], then with
    [{isActive: false}]: both are answered 200 and written to the admin's
    own record, whereas [DELETE /users/a1] and
    [PATCH /users/a1/deactivate] are refused with 400. *)
Theorem C1_updateUser_accepts_self_role_change :
  ∀ emailFormatOk toLowerCase,
    let demote := UserController.updateUser emailFormatOk toLowerCase Example.rootCtx "a1"
                    (UserController.mkUpdateBody None None (Some "developer") None None)
                    Example.users in
    let disable := UserController.updateUser emailFormatOk toLowerCase Example.rootCtx "a1"
                     (UserController.mkUpdateBody None None None (Some false) None)
                     Example.users in
    Example.users !! "a1" = Some Example.root
    ∧ User.role Example.root = admin
    ∧ status demote.1 = 200
    ∧ demote.2 !! "a1" = Some (User.with_role developer Example.root)
    ∧ status disable.1 = 200
    ∧ disable.2 !! "a1" = Some (User.with_isActive false Example.root)
    ∧ UserController.deleteUser Example.rootCtx "a1" Example.users
      = (mkResponse 400 false "Cannot delete your own account", Example.users)
    ∧ UserController.deactivateUser Example.rootCtx "a1" Example.users
      = (mkResponse 400 false "Cannot deactivate your own account", Example.users).
Proof.
  intros emailFormatOk toLowerCase demote disable.
  assert (Example.users !! "a1" = Some Example.root) as Hroot by reflexivity.
  subst demote disable.
  rewrite (updateUser_writes_role emailFormatOk toLowerCase _ _ developer _ _ Hroot).
  rewrite (updateUser_writes_isActive emailFormatOk toLowerCase _ _ false _ _ Hroot).
  simpl. rewrite !lookup_insert_eq.
  repeat split; done.
Qed.

(** ** Lockout (models/User.js, [login] in controllers/authController.js) *)

Lemma findOne_sole name uid u (users : gmap ObjectId User.t) :
  users !! uid = Some u →
  AuthController.matchesLogin name u = true →
  soleMatch name uid users →
  AuthController.findOne name users = Some (uid, u).
Proof.
  intros Hu Hm Hsole. unfold AuthController.findOne.
  destruct (find _ _) as [[k v]|] eqn:E.
  - apply find_some in E as [Hin HP]. simpl in HP.
    apply list_elem_of_In, elem_of_map_to_list in Hin.
    pose proof (Hsole k v Hin HP) as ->. congruence.
  - exfalso. pose proof (find_none _ _ E (uid, u)) as E'. simpl in E'.
    rewrite Hm in E'. discriminate E'.
    by apply list_elem_of_In, elem_of_map_to_list.
Qed.

Lemma soleMatch_insert name uid u (users : gmap ObjectId User.t) :
  soleMatch name uid users → soleMatch name uid (<[uid := u]> users).
Proof.
  intros Hsole k v Hk Hm. destruct (decide (uid = k)) as [->|Hne]; [done|].
  rewrite lookup_insert_ne in Hk by done. eauto.
Qed.

Lemma sameAccount_matchesLogin name u v :
  sameAccount u v →
  AuthController.matchesLogin name v = AuthController.matchesLogin name u.
Proof.
  intros (Hn & He & _). unfold AuthController.matchesLogin. by rewrite Hn, He.
Qed.

Lemma sameAccount_incLoginAttempts now u : sameAccount u (User.incLoginAttempts now u).
Proof.
  unfold sameAccount, User.incLoginAttempts.
  destruct (match User.lockUntil u with Some _ => _ | None => _ end); simpl; [done|].
  case_bool_decide; done.
Qed.

Lemma sameAccount_trans u v w : sameAccount u v → sameAccount v w → sameAccount u w.
Proof. unfold sameAccount. intros (?&?&?&?&?&?) (?&?&?&?&?&?). repeat split; congruence. Qed.

(** A failed attempt on an unlocked account below the threshold only
    counts; the one that reaches the threshold also sets the lock. *)
Lemma incLoginAttempts_unlocked now u :
  User.lockUntil u = None →
  User.loginAttempts (User.incLoginAttempts now u) = User.loginAttempts u + 1
  ∧ User.lockUntil (User.incLoginAttempts now u)
    = if bool_decide (User.loginAttempts u + 1 >= User.maxAttempts)
      then Some (now + User.lockTime) else None.
Proof.
  intros Hl. unfold User.incLoginAttempts. rewrite Hl.
  case_bool_decide; simpl; by rewrite ?Hl.
Qed.

Section Lockout.

Variable bcrypt_compare : string → string → bool.
Variable cfg : Jwt.Config.
Variable name : string.
Variable uid : ObjectId.

Local Abbreviation login := (AuthController.login bcrypt_compare cfg).
Local Abbreviation verifyPassword := (AuthController.verifyPassword bcrypt_compare).

Lemma login_wrong_secret now secret u (users : gmap ObjectId User.t) :
  users !! uid = Some u →
  AuthController.matchesLogin name u = true →
  soleMatch name uid users →
  User.isLocked now u = false →
  User.isActive u = true →
  verifyPassword u secret = false →
  login now name secret users
  = (invalidCredentials, AuthController.NoData,
     <[uid := User.incLoginAttempts now u]> users).
Proof.
  intros Hu Hm Hsole Hlock Hact Hpw. unfold AuthController.login.
  rewrite (findOne_sole _ _ _ _ Hu Hm Hsole), Hlock, Hact. simpl.
  by rewrite Hpw.
Qed.

Lemma login_locked now secret u (users : gmap ObjectId User.t) :
  users !! uid = Some u →
  AuthController.matchesLogin name u = true →
  soleMatch name uid users →
  User.isLocked now u = true →
  login now name secret users = (lockedOut, AuthController.NoData, users).
Proof.
  intros Hu Hm Hsole Hlock. unfold AuthController.login.
  by rewrite (findOne_sole _ _ _ _ Hu Hm Hsole), Hlock.
Qed.

Lemma login_right_secret now secret u (users : gmap ObjectId User.t) :
  users !! uid = Some u →
  AuthController.matchesLogin name u = true →
  soleMatch name uid users →
  User.isLocked now u = false →
  User.isActive u = true →
  User.mfaEnabled u = false →
  verifyPassword u secret = true →
  login now name secret users
  = (mkResponse 200 true "Login successful",
     AuthController.Tokens (Jwt.generateAccessToken cfg now uid (User.role u))
                           (Jwt.generateRefreshToken cfg now uid),
     <[uid := User.resetLoginAttempts now u]> users).
Proof.
  intros Hu Hm Hsole Hlock Hact Hmfa Hpw. unfold AuthController.login.
  rewrite (findOne_sole _ _ _ _ Hu Hm Hsole), Hlock, Hact, Hmfa. simpl.
  by rewrite Hpw.
Qed.

(** Below the threshold: [length attempts] failures from a count of [k]
    leave the account unlocked with a count of [k + length attempts]. *)
Lemma failed_logins_below_threshold (attempts : list (Z * string)) :
  ∀ (users : gmap ObjectId User.t) u,
    users !! uid = Some u →
    AuthController.matchesLogin name u = true →
    soleMatch name uid users →
    User.isActive u = true →
    User.lockUntil u = None →
    User.loginAttempts u + Z.of_nat (length attempts) < User.maxAttempts →
    Forall (λ a, verifyPassword u a.2 = false) attempts →
    ∃ v, (loginAll bcrypt_compare cfg name attempts users).1
           = replicate (length attempts) invalidCredentials
         ∧ (loginAll bcrypt_compare cfg name attempts users).2 = <[uid := v]> users
         ∧ sameAccount u v
         ∧ User.lockUntil v = None
         ∧ User.loginAttempts v = User.loginAttempts u + Z.of_nat (length attempts).
Proof.
  induction attempts as [|[now secret] rest IH]; intros users u Hu Hm Hsole Hact Hl Hk Hw.
  - exists u. simpl. rewrite insert_id by done. repeat split; try done. lia.
  - apply Forall_cons in Hw as [Hw1 Hw]. simpl in Hw1.
    simpl loginAll.
    pose proof (login_wrong_secret now secret u users Hu Hm Hsole) as Hstep.
    rewrite Hstep; try done.
    2:{ unfold User.isLocked. by rewrite Hl. }
    clear Hstep.
    pose proof (sameAccount_incLoginAttempts now u) as Hsame.
    pose proof (incLoginAttempts_unlocked now u Hl) as [Hcnt Hlk].
    rewrite bool_decide_eq_false_2 in Hlk by (simpl length in Hk; lia).
    set (u1 := User.incLoginAttempts now u) in *.
    destruct (IH (<[uid := u1]> users) u1) as (v & Hr & Hs & Hsv & Hlv & Hcv).
    + by rewrite lookup_insert_eq.
    + by rewrite (sameAccount_matchesLogin name u u1).
    + by apply soleMatch_insert.
    + destruct Hsame as (_&_&_&_&<-&_). done.
    + done.
    + rewrite Hcnt. simpl length in Hk. lia.
    + eapply Forall_impl; [exact Hw|]. intros a Ha. simpl in *.
      unfold AuthController.verifyPassword in *.
      destruct Hsame as (_&_&<-&_). done.
    + destruct (loginAll bcrypt_compare cfg name rest (<[uid:=u1]> users)) as [rs users2].
      simpl in *. exists v. subst rs users2. rewrite insert_insert_eq.
      split; [done|]. split; [done|].
      split; [by eapply sameAccount_trans|].
      split; [done|]. rewrite Hcv, Hcnt. lia.
Qed.

End Lockout.

Lemma loginAll_app bcrypt_compare cfg name (xs ys : list (Z * string))
    (users : gmap ObjectId User.t) :
  loginAll bcrypt_compare cfg name (xs ++ ys) users
  = let '(rs1, users1) := loginAll bcrypt_compare cfg name xs users in
    let '(rs2, users2) := loginAll bcrypt_compare cfg name ys users1 in
    (rs1 ++ rs2, users2).
Proof.
  revert users. induction xs as [|[now secret] xs IH]; intros users; simpl.
  - by destruct (loginAll _ _ _ ys users).
  - destruct (AuthController.login _ _ _ _ _ _) as [[r d] users1].
    rewrite IH. destruct (loginAll _ _ _ xs users1) as [rs1 users2].
    by destruct (loginAll _ _ _ ys users2).
Qed.

(** C3 (amended). For an active account without MFA, with no failed
    attempt and no lock, that is the only one its login name resolves to:
    five consecutive failed logins are each answered 401 and leave the
    count at 5 with [lockUntil] two hours after the fifth; while that
    instant is ahead every login, whatever the secret, is answered with the
    lock message and changes nothing; from that instant on a login with the
    right secret succeeds, puts the count back to 0 and removes the lock. *)
Theorem C3_lockout_threshold bcrypt_compare cfg name uid u
    (users : gmap ObjectId User.t) (a1 a2 a3 a4 a5 : Z * string) (good : string) :
  users !! uid = Some u →
  AuthController.matchesLogin name u = true →
  soleMatch name uid users →
  User.isActive u = true →
  User.mfaEnabled u = false →
  User.loginAttempts u = 0 →
  User.lockUntil u = None →
  Forall (λ a, AuthController.verifyPassword bcrypt_compare u a.2 = false)
    [a1; a2; a3; a4; a5] →
  AuthController.verifyPassword bcrypt_compare u good = true →
  ∃ users5 u5,
    loginAll bcrypt_compare cfg name [a1; a2; a3; a4; a5] users
    = (replicate 5 invalidCredentials, users5)
    ∧ users5 !! uid = Some u5
    ∧ User.loginAttempts u5 = 5
    ∧ User.lockUntil u5 = Some (a5.1 + 2 * 60 * 60 * 1000)
    ∧ (∀ t6 secret, t6 < a5.1 + 2 * 60 * 60 * 1000 →
         AuthController.login bcrypt_compare cfg t6 name secret users5
         = (lockedOut, AuthController.NoData, users5))
    ∧ (∀ t7, a5.1 + 2 * 60 * 60 * 1000 ≤ t7 →
         ∃ access refresh users7 u7,
           AuthController.login bcrypt_compare cfg t7 name good users5
           = (mkResponse 200 true "Login successful",
              AuthController.Tokens access refresh, users7)
           ∧ users7 !! uid = Some u7
           ∧ User.loginAttempts u7 = 0
           ∧ User.lockUntil u7 = None).
Proof.
  intros Hu Hm Hsole Hact Hmfa Hcnt Hlk Hw Hgood.
  change [a1; a2; a3; a4; a5] with ([a1; a2; a3; a4] ++ [a5]) in *.
  apply Forall_app in Hw as [Hw4 Hw5]. rewrite Forall_singleton in Hw5.
  destruct (failed_logins_below_threshold bcrypt_compare cfg name uid
              [a1; a2; a3; a4] users u) as (v & Hr & Hs & Hsame & Hlv & Hcv);
    try done.
  { rewrite Hcnt. by vm_compute. }
  rewrite loginAll_app.
  destruct (loginAll bcrypt_compare cfg name [a1; a2; a3; a4] users) as [rs4 users4].
  simpl in Hr, Hs. subst rs4 users4.
  destruct a5 as [t5 w5]. simpl in Hw5 |- *.
  pose proof Hsame as (Hn & He & Hp & Hrole & Ha & Hmf).
  assert (AuthController.matchesLogin name v = true) as Hmv
    by by rewrite (sameAccount_matchesLogin name u v).
  assert (∀ s, AuthController.verifyPassword bcrypt_compare v s
               = AuthController.verifyPassword bcrypt_compare u s) as Hver
    by (intros s; unfold AuthController.verifyPassword; by rewrite Hp).
  rewrite (login_wrong_secret bcrypt_compare cfg name uid t5 w5 v);
    [|by rewrite lookup_insert_eq|done|by apply soleMatch_insert
     |by unfold User.isLocked; rewrite Hlv|congruence|rewrite Hver; exact Hw5].
  rewrite insert_insert_eq.
  pose proof (incLoginAttempts_unlocked t5 v Hlv) as [Hc5 Hl5].
  rewrite Hcv, Hcnt in Hc5, Hl5. simpl in Hc5, Hl5.
  pose proof (sameAccount_incLoginAttempts t5 v) as (Hn5 & He5 & Hp5 & Hrole5 & Ha5 & Hmf5).
  set (u5 := User.incLoginAttempts t5 v) in *.
  assert (AuthController.matchesLogin name u5 = true) as Hm5.
  { unfold AuthController.matchesLogin in *. by rewrite <- Hn5, <- He5. }
  exists (<[uid := u5]> users), u5.
  split; [done|]. split; [by rewrite lookup_insert_eq|].
  split; [done|]. split; [done|]. split.
  - intros t6 secret Ht6.
    apply (login_locked bcrypt_compare cfg name uid t6 secret u5);
      [by rewrite lookup_insert_eq|done|by apply soleMatch_insert|].
    unfold User.isLocked. rewrite Hl5. apply bool_decide_eq_true_2.
    unfold User.lockTime. lia.
  - intros t7 Ht7.
    eexists _, _, _, (User.resetLoginAttempts t7 u5).
    split.
    + apply (login_right_secret bcrypt_compare cfg name uid t7 good u5);
        [by rewrite lookup_insert_eq|done|by apply soleMatch_insert| |congruence|congruence|].
      * unfold User.isLocked. rewrite Hl5. apply bool_decide_eq_false_2.
        unfold User.lockTime. lia.
      * unfold AuthController.verifyPassword in *. by rewrite <- Hp5, <- Hp.
    + by rewrite lookup_insert_eq.
Qed.

Lemma C3_lockout_threshold_witness :
  let a := λ (k : Z), (k * 1000, "WrongPassword@1") in
  Example.users !! "u1" = Some Example.alice
  ∧ soleMatch "alice@example.com" "u1" Example.users
  ∧ User.isActive Example.alice = true
  ∧ User.mfaEnabled Example.alice = false
  ∧ User.loginAttempts Example.alice = 0
  ∧ User.lockUntil Example.alice = None
  ∧ AuthController.verifyPassword Example.compare Example.alice "OldPassword@1" = true
  ∧ ∃ users5 u5,
      loginAll Example.compare Example.cfg "alice@example.com"
        [a 1; a 2; a 3; a 4; a 5] Example.users
      = (replicate 5 invalidCredentials, users5)
      ∧ users5 !! "u1" = Some u5
      ∧ User.loginAttempts u5 = 5
      ∧ User.lockUntil u5 = Some ((a 5).1 + 2 * 60 * 60 * 1000)
      ∧ (∀ t6 secret, t6 < (a 5).1 + 2 * 60 * 60 * 1000 →
           AuthController.login Example.compare Example.cfg t6 "alice@example.com" secret users5
           = (lockedOut, AuthController.NoData, users5))
      ∧ (∀ t7, (a 5).1 + 2 * 60 * 60 * 1000 ≤ t7 →
           ∃ access refresh users7 u7,
             AuthController.login Example.compare Example.cfg t7 "alice@example.com"
               "OldPassword@1" users5
             = (mkResponse 200 true "Login successful",
                AuthController.Tokens access refresh, users7)
             ∧ users7 !! "u1" = Some u7
             ∧ User.loginAttempts u7 = 0
             ∧ User.lockUntil u7 = None).
Proof.
  intros a.
  assert (soleMatch "alice@example.com" "u1" Example.users) as Hsole.
  { apply (bool_decide_unpack _). vm_compute. exact I. }
  split; [reflexivity|]. split; [exact Hsole|].
  do 5 (split; [reflexivity|]).
  apply (C3_lockout_threshold Example.compare Example.cfg "alice@example.com" "u1"
           Example.alice Example.users (a 1) (a 2) (a 3) (a 4) (a 5) "OldPassword@1");
    try reflexivity; try exact Hsole.
  repeat constructor.
Defined.

(** C3 as stated fails outside those accounts.  Bob is deactivated: five
    failed logins are answered "deactivated", count nothing and set no
    lock.  Carol has MFA on: once her lock has run out, a login with the
    right secret is answered 200 "MFA verification required" and leaves
    the count at 5 and the old [lockUntil] in place. *)
Lemma C3_every_subject_counterexample :
  let a := λ (k : Z), (k * 1000, "WrongPassword@1") in
  (User.loginAttempts Example.bob = 0 ∧ User.lockUntil Example.bob = None
   ∧ let run := loginAll Example.compare Example.cfg "bob@example.com"
                  [a 1; a 2; a 3; a 4; a 5] Example.users in
     run.1 = replicate 5 (mkResponse 403 false "Account has been deactivated")
     ∧ run.2 = Example.users)
  ∧ (User.loginAttempts Example.carol = 0 ∧ User.lockUntil Example.carol = None
     ∧ let run := loginAll Example.compare Example.cfg "carol@example.com"
                    [a 1; a 2; a 3; a 4; a 5] Example.users in
       (User.lockUntil <$> run.2 !! "u3") = Some (Some 7205000)
       ∧ let after := AuthController.login Example.compare Example.cfg 7205000
                        "carol@example.com" "CarolPassword@1" run.2 in
         after.1.1 = mkResponse 200 true "MFA verification required"
         ∧ (User.loginAttempts <$> after.2 !! "u3") = Some 5
         ∧ (User.lockUntil <$> after.2 !! "u3") = Some (Some 7205000)).
Proof.
  intros a. repeat split; vm_compute; reflexivity.
Qed.

(** ** Completion requests (controllers/messageController.js) *)

(** Closes the error branches: nothing changed, [success: false], and the
    status is one of those listed. *)
Ltac refused := simpl; repeat split; try done; repeat constructor.



Lemma idEq_true x uid : idEq x uid = true ↔ x = Some uid.
Proof.
  destruct x as [i|]; simpl; [|done].
  rewrite bool_decide_eq_true. split; congruence.
Qed.




Lemma validContent_check c :
  validContent c →
  bool_decide (c = "") || bool_decide (String.length (trim c) = 0%nat) = false
  ∧ bool_decide (2000 < Z.of_nat (String.length (trim c))) = false.
Proof.
  intros (H1 & H2 & H3). split.
  - by rewrite !bool_decide_eq_false_2.
  - apply bool_decide_eq_false_2. lia.
Qed.



Lemma hasProjectAccess_project_lead u p :
  role u = project_lead →
  MessageController.hasProjectAccess u p = true ↔ ownsOrLeads u p.
Proof.
  intros Hr. unfold MessageController.hasProjectAccess, ownsOrLeads. rewrite Hr. simpl.
  rewrite <- !idEq_true.
  destruct (idEq (getId (projectLead p)) (id u)), (idEq (getId (createdBy p)) (id u));
    simpl; intuition congruence.
Qed.

(** Whatever the request, [reviewCompletionRequest] either changes nothing
    and answers an error, or answers 200 after every gate has passed and
    writes the review. *)
Lemma reviewCompletionRequest_cases now u mid approved response
    (projects : gmap ObjectId Project) (messages : gmap ObjectId Message) :
  let res := MessageController.reviewCompletionRequest now u mid approved response
               projects messages in
  (res.1.2 = projects ∧ res.2 = messages ∧ success res.1.1 = false
   ∧ status res.1.1 ∈ [400; 403; 404; 500])
  ∨ (∃ m,
       messages !! mid = Some m
       ∧ type m = mt_completion_request
       ∧ reviewedBy m = None
       ∧ (role u = admin
          ∨ (role u = project_lead
             ∧ ∃ p, projects !! m_project m = Some p ∧ ownsOrLeads u p))
       ∧ res = (mkResponse 200 true
                  (if approved then "Project marked as completed"
                   else "Completion request rejected"),
                (if approved
                 then alter (MessageController.completed u) (m_project m) projects
                 else projects),
                <[mid := MessageController.reviewed now u approved response m]> messages)).
Proof.
  unfold MessageController.reviewCompletionRequest. cbv zeta.
  case_bool_decide as Hrole; simpl; [|left; refused].
  destruct (messages !! mid) as [m|] eqn:Hm; [|left; refused].
  case_bool_decide as Hty; simpl; [|left; refused].
  case_bool_decide as Hrev; [left; refused|].
  assert (reviewedBy m = None) as Hnone.
  { destruct (reviewedBy m); [|done]. exfalso. apply Hrev. by eexists. }
  case_bool_decide as Hadm.
  - case_bool_decide; [left; refused|].
    right. exists m. do 3 (split; [done|]). split; [by left|done].
  - assert (role u = project_lead) as Hlead.
    { apply list_elem_of_In in Hrole. simpl in Hrole. intuition congruence. }
    destruct (projects !! m_project m) as [p|] eqn:Hp; simpl; [|left; refused].
    destruct (MessageController.hasProjectAccess u p) eqn:Ha; [|left; refused].
    case_bool_decide; [left; refused|].
    right. exists m. do 3 (split; [done|]). split; [|done].
    right. split; [done|]. exists p. split; [done|].
    by apply hasProjectAccess_project_lead.
Qed.


Lemma reviewCompletionRequest_not_a_request now u mid approved response m
    (projects : gmap ObjectId Project) (messages : gmap ObjectId Message) :
  messages !! mid = Some m →
  type m ≠ mt_completion_request →
  let res := MessageController.reviewCompletionRequest now u mid approved response
               projects messages in
  res.1.2 = projects ∧ res.2 = messages ∧ success res.1.1 = false
  ∧ status res.1.1 ∈ [400; 403].
Proof.
  intros Hm Hty. unfold MessageController.reviewCompletionRequest. cbv zeta.
  destruct (negb _); [refused|]. rewrite Hm.
  rewrite (bool_decide_eq_false_2 _ Hty). refused.
Qed.










(** ** Documents (controllers/documentController.js) *)


Lemma someAccess_false uid (l : list AccessEntry) :
  Forall (λ e, is_Some (userId e)) l →
  Some uid ∉ userId <$> l →
  DocumentController.someAccess uid l = Some false.
Proof.
  induction l as [|e l IH]; simpl; [done|].
  intros [[i Hi] Hall]%Forall_cons Hnot. rewrite Hi.
  rewrite not_elem_of_cons in Hnot. destruct Hnot as [Hne Hnot].
  rewrite bool_decide_eq_false_2 by congruence. auto.
Qed.



Lemma buildAccessibleBy_roles p e :
  e ∈ DocumentController.buildAccessibleBy p →
  a_role e = Some project_lead ∧ userId e = getId (projectLead p)
  ∨ a_role e = Some developer
    ∧ ∃ dev, dev ∈ default [] (assignedDevelopers p) ∧ userId e = getId dev.
Proof.
  unfold DocumentController.buildAccessibleBy. intros [He|He]%elem_of_app.
  - destruct (getId (projectLead p)); [|by apply elem_of_nil in He].
    apply list_elem_of_singleton in He as ->. by left.
  - destruct (assignedDevelopers p) as [devs|]; [|by apply elem_of_nil in He].
    rewrite list_elem_of_In in He. apply in_map_iff in He as (dev & <- & Hdev).
    right. split; [done|]. exists dev. by rewrite list_elem_of_In.
Qed.

Lemma buildAccessibleBy_userIds p :
  Forall (λ dev, is_Some (getId dev)) (default [] (assignedDevelopers p)) →
  Forall (λ e, is_Some (userId e)) (DocumentController.buildAccessibleBy p).
Proof.
  intros Hall. unfold DocumentController.buildAccessibleBy. apply Forall_app. split.
  - destruct (getId (projectLead p)); repeat constructor. by eexists.
  - destruct (assignedDevelopers p) as [devs|]; simpl in *; [|constructor].
    apply Forall_forall. intros e He. rewrite list_elem_of_In in He.
    apply in_map_iff in He as (dev & <- & Hdev). rewrite <- list_elem_of_In in Hdev.
    simpl. rewrite Forall_forall in Hall. by apply Hall.
Qed.

(** The record written by a successful upload. *)
Lemma uploadDocument_created extname toLowerCase config env u pid file cls
    (projects : gmap ObjectId Project) (documents documents' : gmap ObjectId Document) r :
  DocumentController.uploadDocument extname toLowerCase config env u pid file cls
    projects documents = (r, documents') →
  status r = 201 →
  ∃ project d,
    projects !! pid = Some project
    ∧ DocumentController.canUploadToProject u project = true
    ∧ documents !! DocumentController.newId env = None
    ∧ documents' = <[DocumentController.newId env := d]> documents
    ∧ d_project d = pid
    ∧ uploadedBy d = id u
    ∧ accessibleBy d = DocumentController.buildAccessibleBy project.
Proof.
  unfold DocumentController.uploadDocument.
  destruct file as [file|]; [|by intros [= <- <-]].
  destruct (projects !! pid) as [project|]; [|by intros [= <- <-]].
  destruct (DocumentController.canUploadToProject u project) eqn:Hcan; simpl;
    [|by intros [= <- <-]].
  destruct (DocumentController.validateUploadFile _ _ _ _); [by intros [= <- <-]|].
  destruct (DocumentController.cloudinaryResult env) as [[url public_id]|];
    [|by intros [= <- <-]].
  destruct (parse_classification _) as [c|]; [|by intros [= <- <-]].
  destruct (negb _ || _) eqn:H1; simpl; [by intros [= <- <-]|].
  case_bool_decide as Hnew; simpl; [by intros [= <- <-]|].
  intros [= <- <-] _.
  assert (documents !! DocumentController.newId env = None) as Hfresh.
  { destruct (documents !! DocumentController.newId env) eqn:E; [|done].
    exfalso. apply Hnew. by eexists. }
  eexists project, _. do 3 (split; [done|]). split; [reflexivity|]. done.
Qed.




(** For an authorised subject and an existing document, a non-empty
    requested classification is written exactly when it is one of
    public, internal and confidential. *)
Lemma updateDocument_classification u docId c d p
    (projects : gmap ObjectId Project) (documents : gmap ObjectId Document) :
  documents !! docId = Some d →
  projects !! d_project d = Some p →
  DocumentController.canUploadToProject u p = true →
  c ≠ "" →
  DocumentController.updateDocument u docId (Some c) None projects documents
  = if bool_decide (c ∈ ["public"; "internal"; "confidential"])
    then (mkResponse 200 true "Document updated successfully",
          <[docId := DocumentController.withClassification
                       (default cl_internal (parse_classification c)) d]> documents)
    else if bool_decide (c = "restricted") then (internalError, documents)
    else (mkResponse 400 false "Invalid classification value", documents).
Proof.
  intros Hd Hp Hcan Hc. unfold DocumentController.updateDocument.
  rewrite Hd, Hp, Hcan. simpl. rewrite (bool_decide_eq_false_2 _ Hc).
  unfold DocumentController.allowedClassifications.
  destruct (decide (c = "public")) as [->|N1]; [done|].
  destruct (decide (c = "internal")) as [->|N2]; [done|].
  destruct (decide (c = "confidential")) as [->|N3]; [done|].
  destruct (decide (c = "restricted")) as [->|N4]; [done|].
  rewrite (bool_decide_eq_false_2 (c = "restricted")) by done.
  rewrite !bool_decide_eq_false_2; [done|..];
    rewrite !elem_of_cons, elem_of_nil; tauto.
Qed.

(** C9 (the code departs from it). The admin asks for the classification
    of [doc1] to become secret, a value of the schema's enum: the
    controller, whose own list has restricted in place of secret, answers
    400 and leaves the document as it was; restricted passes that list
    and then fails the schema, so the answer is 500; confidential is
    written. *)
Theorem C9_updateDocument_rejects_secret :
  parse_classification "secret" = Some cl_secret
  ∧ DocumentController.canUploadToProject Example.rootCtx Example.project = true
  ∧ DocumentController.updateDocument Example.rootCtx "doc1" (Some "secret") None
      Example.projects Example.documents
    = (mkResponse 400 false "Invalid classification value", Example.documents)
  ∧ DocumentController.updateDocument Example.rootCtx "doc1" (Some "restricted") None
      Example.projects Example.documents
    = (internalError, Example.documents)
  ∧ DocumentController.updateDocument Example.rootCtx "doc1" (Some "confidential") None
      Example.projects Example.documents
    = (mkResponse 200 true "Document updated successfully",
       <["doc1" := DocumentController.withClassification cl_confidential Example.document]>
         Example.documents).
Proof.
  split; [reflexivity|]. split; [reflexivity|].
  rewrite !(updateDocument_classification Example.rootCtx "doc1" _ Example.document
              Example.project) by done.
  done.
Qed.

(** * Further properties *)

(** ** Tokens (utils/jwt.js) *)

(** X1. A token verified by the function of its own kind gives back what
    was signed, as long as the current second is before its expiry; from
    the expiry second on it is refused as expired. *)
Theorem token_round_trip cfg issued now uid r :
  Jwt.verifyAccessToken cfg now (Jwt.generateAccessToken cfg issued uid r)
  = (if bool_decide (now / 1000 < issued / 1000 + Jwt.expiration cfg)
     then inr (Jwt.mkAccess uid r (issued / 1000) (issued / 1000 + Jwt.expiration cfg)
                 Jwt.issuer Jwt.audience)
     else inl "Access token has expired")
  ∧ Jwt.verifyRefreshToken cfg now (Jwt.generateRefreshToken cfg issued uid)
    = (if bool_decide (now / 1000 < issued / 1000 + Jwt.refreshExpiration cfg)
       then inr uid
       else inl "Refresh token has expired").
Proof.
  unfold Jwt.verifyAccessToken, Jwt.verifyRefreshToken, Jwt.generateAccessToken,
    Jwt.generateRefreshToken. simpl.
  rewrite !bool_decide_eq_true_2 by done. simpl.
  split; repeat case_bool_decide; try done; lia.
Qed.

(** X2. The two kinds of token are told apart: a refresh token is never
    accepted as an access token, and an access token is accepted as a
    refresh token exactly when it is unexpired and the two secrets are the
    same string. *)
Theorem token_kinds_told_apart cfg issued now uid r :
  (∃ msg, Jwt.verifyAccessToken cfg now (Jwt.generateRefreshToken cfg issued uid) = inl msg)
  ∧ (Jwt.verifyRefreshToken cfg now (Jwt.generateAccessToken cfg issued uid r) = inr uid
     ↔ Jwt.secret cfg = Jwt.refreshSecret cfg
       ∧ now / 1000 < issued / 1000 + Jwt.expiration cfg).
Proof.
  unfold Jwt.verifyAccessToken, Jwt.verifyRefreshToken, Jwt.generateAccessToken,
    Jwt.generateRefreshToken. simpl. split.
  - repeat case_bool_decide; simpl; eauto.
  - split.
    + repeat case_bool_decide; simpl; try done. intros _. split; [done|lia].
    + intros [Hs Ht]. repeat case_bool_decide; simpl; try done; lia.
Qed.

(** ** Sessions (middleware/auth.js, controllers/authController.js) *)

Lemma sameUpToLoginState_lookup users1 users2 i :
  sameUpToLoginState users1 users2 →
  match users1 !! i, users2 !! i with
  | Some u1, Some u2 =>
      User.isActive u1 = User.isActive u2
      ∧ User.passwordChangedAt u1 = User.passwordChangedAt u2
      ∧ User.email u1 = User.email u2
      ∧ User.role u1 = User.role u2
  | None, None => True
  | _, _ => False
  end.
Proof.
  intros H. specialize (H i).
  destruct (users1 !! i) as [[]|], (users2 !! i) as [[]|]; simpl in *;
    try done; by simplify_eq.
Qed.

(** X3. The lockout fields play no part in a session: two user
    collections that differ only in failure counts, locks and last-login
    times give the same answer to [authenticate] and to [refreshToken], so
    a lock stops new logins but not the tokens already issued. *)
Theorem lockout_does_not_touch_sessions cfg now hdr token users1 users2 :
  sameUpToLoginState users1 users2 →
  AuthMiddleware.authenticate cfg now hdr users1
  = AuthMiddleware.authenticate cfg now hdr users2
  ∧ AuthController.refreshToken cfg now token users1
    = AuthController.refreshToken cfg now token users2.
Proof.
  intros H. split.
  - unfold AuthMiddleware.authenticate.
    destruct hdr as [[tok|]|]; try done.
    destruct (Jwt.verifyAccessToken cfg now tok) as [msg|payload]; [done|].
    pose proof (sameUpToLoginState_lookup _ _ (Jwt.sub payload) H) as Hl.
    destruct (users1 !! Jwt.sub payload) as [u1|], (users2 !! Jwt.sub payload) as [u2|];
      try done.
    destruct Hl as (Ha & Hp & He & _).
    unfold User.passwordChangedAfter. by rewrite Ha, Hp, He.
  - unfold AuthController.refreshToken.
    destruct token as [tok|]; [|done].
    destruct (Jwt.verifyRefreshToken cfg now tok) as [msg|sub]; [done|].
    pose proof (sameUpToLoginState_lookup _ _ sub H) as Hl.
    destruct (users1 !! sub) as [u1|], (users2 !! sub) as [u2|]; try done.
    destruct Hl as (Ha & _ & _ & Hr). by rewrite Ha, Hr.
Qed.

Lemma sameUpToLoginState_insert (users : gmap ObjectId User.t) i u n l :
  users !! i = Some u →
  sameUpToLoginState users (<[i := User.with_lockUntil l (User.with_loginAttempts n u)]> users).
Proof.
  intros Hu j. destruct (decide (i = j)) as [->|Hne].
  - by rewrite lookup_insert_eq, Hu.
  - by rewrite lookup_insert_ne.
Qed.

Lemma lockout_does_not_touch_sessions_witness :
  let locked := <["u1" := User.with_lockUntil (Some 9000000)
                            (User.with_loginAttempts 5 Example.alice)]> Example.users in
  let hdr := Some (AuthMiddleware.Bearer
                     (Jwt.generateAccessToken Example.cfg 1000000 "u1" developer)) in
  let token := Some (Jwt.generateRefreshToken Example.cfg 1000000 "u1") in
  sameUpToLoginState Example.users locked
  ∧ AuthMiddleware.authenticate Example.cfg 1060000 hdr Example.users
    = AuthMiddleware.authenticate Example.cfg 1060000 hdr locked
  ∧ AuthController.refreshToken Example.cfg 1060000 token Example.users
    = AuthController.refreshToken Example.cfg 1060000 token locked.
Proof.
  intros locked hdr token.
  pose proof (sameUpToLoginState_insert Example.users "u1" Example.alice 5 (Some 9000000)
                eq_refl) as H.
  split; [exact H|].
  exact (lockout_does_not_touch_sessions Example.cfg 1060000 hdr token
           Example.users locked H).
Defined.

(** X4. [optionalAuth] attaches the user whenever [authenticate] admits
    the request, and the only requests it attaches a user to that
    [authenticate] refuses are those refused for a password changed after
    the token was issued; when it attaches nobody, [authenticate] answers
    401. *)
Theorem optionalAuth_versus_authenticate cfg now hdr (users : gmap ObjectId User.t) :
  (∀ u, AuthMiddleware.authenticate cfg now hdr users = inr u →
        AuthMiddleware.optionalAuth cfg now hdr users = Some u)
  ∧ (∀ u r, AuthMiddleware.optionalAuth cfg now hdr users = Some u →
            AuthMiddleware.authenticate cfg now hdr users = inl r →
            r = staleCredential)
  ∧ (AuthMiddleware.optionalAuth cfg now hdr users = None →
     ∃ r, AuthMiddleware.authenticate cfg now hdr users = inl r ∧ status r = 401).
Proof.
  unfold AuthMiddleware.authenticate, AuthMiddleware.optionalAuth.
  destruct hdr as [[tok|]|]; try (repeat split; intros; simplify_eq; eauto; fail).
  destruct (Jwt.verifyAccessToken cfg now tok) as [msg|payload];
    [repeat split; intros; simplify_eq; eauto|].
  destruct (users !! Jwt.sub payload) as [user|];
    [|repeat split; intros; simplify_eq; eauto].
  destruct (User.isActive user); simpl; [|repeat split; intros; simplify_eq; eauto].
  destruct (User.passwordChangedAfter user (Jwt.iat payload));
    repeat split; intros; simplify_eq; eauto.
Qed.

Lemma optionalAuth_versus_authenticate_witness :
  let users := <["u1" := User.with_passwordChangedAt (Some 1060000) Example.alice]>
                 Example.users in
  let hdr := Some (AuthMiddleware.Bearer
                     (Jwt.generateAccessToken Example.cfg 1000000 "u1" developer)) in
  AuthMiddleware.optionalAuth Example.cfg 1120000 hdr users
  = Some (mkReqUser "u1" developer "alice@example.com")
  ∧ AuthMiddleware.authenticate Example.cfg 1120000 hdr users = inl staleCredential.
Proof.
  intros users hdr.
  assert (AuthMiddleware.optionalAuth Example.cfg 1120000 hdr users
          = Some (mkReqUser "u1" developer "alice@example.com")) as Ho by reflexivity.
  split; [exact Ho|].
  destruct (AuthMiddleware.authenticate Example.cfg 1120000 hdr users) as [r|u] eqn:Ha.
  - f_equal.
    exact (proj1 (proj2 (optionalAuth_versus_authenticate Example.cfg 1120000 hdr users))
             _ r Ho Ha).
  - discriminate Ha.
Defined.

(** ** Credential changes (controllers/authController.js,
    controllers/userController.js) *)

Lemma changePassword_success bcrypt_compare bcrypt_hash now me oldPassword newPassword
    confirmPassword (users users' : gmap ObjectId User.t) user r :
  users !! id me = Some user →
  AuthController.changePassword bcrypt_compare bcrypt_hash now me oldPassword newPassword
    confirmPassword users = (r, users') →
  status r = 200 →
  newPassword ≠ Some (User.password user) →
  ∃ new, newPassword = Some new
         ∧ users' = <[id me := User.with_passwordChangedAt (Some now)
                                 (User.with_password (bcrypt_hash new) user)]> users.
Proof.
  intros Hu Heq Hst Hnew. unfold AuthController.changePassword in Heq.
  rewrite Hu in Heq.
  destruct (negb _); [by simplify_eq|].
  destruct oldPassword as [old|]; [|by simplify_eq].
  destruct (negb _); [by simplify_eq|].
  destruct newPassword as [new|]; [|by simplify_eq].
  case_bool_decide; [by subst|].
  case_bool_decide; [by simplify_eq|].
  simplify_eq. by exists new.
Qed.

(** X5. After a password change that was answered 200 and did change the
    stored digest, an otherwise valid access token of that user is refused
    as stale when it was issued in an earlier second than the change, and
    still accepted when it was issued in the second of the change or
    later. *)
Theorem changePassword_and_access_tokens bcrypt_compare bcrypt_hash now me oldPassword
    newPassword confirmPassword (users users' : gmap ObjectId User.t) user r :
  users !! id me = Some user →
  User.isActive user = true →
  AuthController.changePassword bcrypt_compare bcrypt_hash now me oldPassword newPassword
    confirmPassword users = (r, users') →
  status r = 200 →
  newPassword ≠ Some (User.password user) →
  ∀ cfg now' token c,
    Jwt.verifyAccessToken cfg now' token = inr c →
    Jwt.sub c = id me →
    AuthMiddleware.authenticate cfg now' (Some (AuthMiddleware.Bearer token)) users'
    = if bool_decide (Jwt.iat c < now / 1000) then inl staleCredential
      else inr (mkReqUser (id me) (Jwt.role c) (User.email user)).
Proof.
  intros Hu Hact Heq Hst Hnew cfg now' token c Hv Hsub.
  destruct (changePassword_success _ _ _ _ _ _ _ _ _ _ _ Hu Heq Hst Hnew) as (new & _ & ->).
  unfold AuthMiddleware.authenticate. rewrite Hv, Hsub, lookup_insert_eq. simpl.
  rewrite Hact. simpl. unfold User.passwordChangedAfter. simpl.
  by case_bool_decide.
Qed.

Lemma changePassword_and_access_tokens_witness :
  let me := mkReqUser "u1" developer "alice@example.com" in
  let after := AuthController.changePassword Example.compare Example.hash 1060000 me
                 (Some "OldPassword@1") (Some "NewPassword@2") (Some "NewPassword@2")
                 Example.users in
  let bearer := λ issued, Some (AuthMiddleware.Bearer
                                  (Jwt.generateAccessToken Example.cfg issued "u1" developer)) in
  status after.1 = 200
  ∧ AuthMiddleware.authenticate Example.cfg 1120000 (bearer 1059999) after.2
    = inl staleCredential
  ∧ AuthMiddleware.authenticate Example.cfg 1120000 (bearer 1060000) after.2
    = inr me.
Proof.
  intros me after bearer.
  assert (status after.1 = 200) as Hst by reflexivity.
  split; [exact Hst|].
  pose proof (changePassword_and_access_tokens Example.compare Example.hash 1060000 me
                (Some "OldPassword@1") (Some "NewPassword@2") (Some "NewPassword@2")
                Example.users after.2 Example.alice after.1 eq_refl eq_refl eq_refl Hst
                ltac:(discriminate) Example.cfg 1120000) as H.
  split.
  - exact (H (Jwt.generateAccessToken Example.cfg 1059999 "u1" developer) _ eq_refl eq_refl).
  - exact (H (Jwt.generateAccessToken Example.cfg 1060000 "u1" developer) _ eq_refl eq_refl).
Defined.

(** X6. After such a password change, a login with the new password
    succeeds, and a login with any secret that bcrypt does not match
    against the new digest (the old password, normally) is refused and
    counted: it is answered 401 and writes only the failure count and the
    lock of that account; the count goes up by one when no lock is stored,
    a lock being set exactly when it reaches 5, and it restarts at 1
    without a lock when a stored lock ran out before the request.  All
    this provided the account is active, unlocked, without MFA and the
    only one its login name resolves to. *)
Theorem changePassword_then_login bcrypt_compare bcrypt_hash cfg now me oldPassword new
    confirmPassword (users users' : gmap ObjectId User.t) user r name now' :
  users !! id me = Some user →
  AuthController.changePassword bcrypt_compare bcrypt_hash now me oldPassword (Some new)
    confirmPassword users = (r, users') →
  status r = 200 →
  new ≠ User.password user →
  bcrypt_compare new (bcrypt_hash new) = true →
  AuthController.matchesLogin name user = true →
  soleMatch name (id me) users →
  User.isActive user = true →
  User.mfaEnabled user = false →
  User.isLocked now' user = false →
  (∃ access refresh users'',
     AuthController.login bcrypt_compare cfg now' name new users'
     = (mkResponse 200 true "Login successful",
        AuthController.Tokens access refresh, users''))
  ∧ (∀ secret, bcrypt_compare secret (bcrypt_hash new) = false →
       ∃ u'',
         AuthController.login bcrypt_compare cfg now' name secret users'
         = (invalidCredentials, AuthController.NoData, <[id me := u'']> users')
         ∧ eraseLoginState <$> users' !! id me = Some (eraseLoginState u'')
         ∧ User.lastLogin u'' = User.lastLogin user
         ∧ (User.lockUntil user = None →
            User.loginAttempts u'' = User.loginAttempts user + 1
            ∧ (is_Some (User.lockUntil u'') ↔ 5 ≤ User.loginAttempts user + 1))
         ∧ (∀ l, User.lockUntil user = Some l → l < now' →
                 User.loginAttempts u'' = 1 ∧ User.lockUntil u'' = None)).
Proof.
  intros Hu Heq Hst Hnew Hhash Hm Hsole Hact Hmfa Hlock.
  destruct (changePassword_success _ _ _ _ _ _ _ _ _ _ _ Hu Heq Hst) as (new' & [= <-] & ->);
    [congruence|].
  set (user' := User.with_passwordChangedAt (Some now)
                  (User.with_password (bcrypt_hash new) user)).
  assert (<[id me := user']> users !! id me = Some user') as Hu'
    by by rewrite lookup_insert_eq.
  assert (soleMatch name (id me) (<[id me := user']> users)) as Hsole'
    by by apply soleMatch_insert.
  split.
  - eexists _, _, _.
    by apply (login_right_secret bcrypt_compare cfg name (id me) now' new user').
  - intros secret Hbad. exists (User.incLoginAttempts now' user').
    split; [by apply (login_wrong_secret bcrypt_compare cfg name (id me) now' secret user')|].
    rewrite Hu'. unfold User.incLoginAttempts, User.maxAttempts. simpl.
    split; [|split; [|split]].
    + destruct (match User.lockUntil user with Some _ => _ | None => _ end); [done|].
      by case_bool_decide.
    + destruct (match User.lockUntil user with Some _ => _ | None => _ end); [done|].
      by case_bool_decide.
    + intros Hnone. rewrite Hnone.
      case_bool_decide as Hge; simpl; rewrite ?Hnone.
      * split; [done|]. split; [intros _; lia|by eexists].
      * split; [done|]. split; [by intros [? [=]]|intros; lia].
    + intros l Hl Hlt. rewrite Hl. by rewrite bool_decide_eq_true_2.
Qed.

Lemma changePassword_then_login_witness :
  let me := mkReqUser "u1" developer "alice@example.com" in
  let after := AuthController.changePassword Example.compare Example.hash 1060000 me
                 (Some "OldPassword@1") (Some "NewPassword@2") (Some "NewPassword@2")
                 Example.users in
  status after.1 = 200
  ∧ soleMatch "alice@example.com" "u1" Example.users
  ∧ (∃ access refresh users'',
       AuthController.login Example.compare Example.cfg 1120000 "alice@example.com"
         "NewPassword@2" after.2
       = (mkResponse 200 true "Login successful",
          AuthController.Tokens access refresh, users''))
  ∧ (∃ u'',
       AuthController.login Example.compare Example.cfg 1120000 "alice@example.com"
         "OldPassword@1" after.2
       = (invalidCredentials, AuthController.NoData, <["u1" := u'']> after.2)
       ∧ User.loginAttempts u'' = 1).
Proof.
  intros me after.
  assert (status after.1 = 200) as Hst by reflexivity.
  assert (soleMatch "alice@example.com" "u1" Example.users) as Hsole.
  { apply (bool_decide_unpack _). vm_compute. exact I. }
  split; [exact Hst|]. split; [exact Hsole|].
  destruct (changePassword_then_login Example.compare Example.hash Example.cfg 1060000 me
              (Some "OldPassword@1") "NewPassword@2" (Some "NewPassword@2")
              Example.users after.2 Example.alice after.1 "alice@example.com" 1120000
              eq_refl eq_refl Hst ltac:(discriminate) eq_refl eq_refl Hsole
              eq_refl eq_refl eq_refl) as [Hok Hbad].
  split; [exact Hok|].
  destruct (Hbad "OldPassword@1" eq_refl) as (u'' & Hlogin & _ & _ & Hcount & _).
  exists u''. split; [exact Hlogin|]. exact (proj1 (Hcount eq_refl)).
Defined.

(** X7. An admin's password reset rewrites the digest and the change
    stamp and nothing else: the failure count and the lock stay, so a
    locked account is still answered with the lock message until the lock
    runs out, whatever temporary password is presented; and the access
    tokens the account got in an earlier second are refused as stale. *)
Theorem resetUserPassword_keeps_lock bcrypt_hash now admin_user target temp
    (users : gmap ObjectId User.t) user :
  users !! target = Some user →
  8 ≤ Z.of_nat (String.length temp) →
  ∃ user',
    UserController.resetUserPassword bcrypt_hash now admin_user target (Some temp) users
    = (mkResponse 200 true "Password reset successfully", <[target := user']> users)
    ∧ User.password user' = bcrypt_hash temp
    ∧ User.passwordChangedAt user' = Some now
    ∧ User.with_passwordChangedAt None (User.with_password "" user')
      = User.with_passwordChangedAt None (User.with_password "" user)
    ∧ (∀ bcrypt_compare cfg now' name secret,
         AuthController.matchesLogin name user = true →
         soleMatch name target users →
         User.isLocked now' user = true →
         AuthController.login bcrypt_compare cfg now' name secret (<[target := user']> users)
         = (lockedOut, AuthController.NoData, <[target := user']> users))
    ∧ (∀ cfg now' token c,
         Jwt.verifyAccessToken cfg now' token = inr c →
         Jwt.sub c = target →
         User.isActive user = true →
         Jwt.iat c < now / 1000 →
         AuthMiddleware.authenticate cfg now' (Some (AuthMiddleware.Bearer token))
           (<[target := user']> users) = inl staleCredential).
Proof.
  intros Hu Hlen.
  set (user' := User.with_passwordChangedAt (Some now)
                  (User.with_password (bcrypt_hash temp) user)).
  exists user'. unfold UserController.resetUserPassword.
  rewrite bool_decide_eq_false_2 by lia. rewrite Hu.
  do 4 (split; [done|]). split.
  - intros bcrypt_compare cfg now' name secret Hm Hsole Hlock.
    apply (login_locked bcrypt_compare cfg name target now' secret user');
      [by rewrite lookup_insert_eq|done|by apply soleMatch_insert|done].
  - intros cfg now' token c Hv Hsub Hact Hiat.
    apply (authenticate_stale_access_token cfg now' token c user' now);
      [done|by rewrite Hsub, lookup_insert_eq|done|done|done].
Qed.

Lemma resetUserPassword_keeps_lock_witness :
  let locked := User.with_lockUntil (Some 9000000) (User.with_loginAttempts 5 Example.alice) in
  let users := <["u1" := locked]> Example.users in
  ∃ user',
    UserController.resetUserPassword Example.hash 2000000 Example.rootCtx "u1"
      (Some "Temporary@1") users
    = (mkResponse 200 true "Password reset successfully", <["u1" := user']> users)
    ∧ User.lockUntil user' = Some 9000000
    ∧ AuthController.login Example.compare Example.cfg 3000000 "alice@example.com"
        "Temporary@1" (<["u1" := user']> users)
      = (lockedOut, AuthController.NoData, <["u1" := user']> users).
Proof.
  intros locked users.
  assert (soleMatch "alice@example.com" "u1" users) as Hsole.
  { apply (bool_decide_unpack _). vm_compute. exact I. }
  destruct (resetUserPassword_keeps_lock Example.hash 2000000 Example.rootCtx "u1"
              "Temporary@1" users locked eq_refl ltac:(by vm_compute))
    as (user' & Heq & _ & _ & Hsame & Hlogin & _).
  exists user'. split; [exact Heq|]. split.
  - exact (f_equal User.lockUntil Hsame).
  - exact (Hlogin Example.compare Example.cfg 3000000 "alice@example.com" "Temporary@1"
             eq_refl Hsole eq_refl).
Defined.

(** X8. Once an account has been deactivated or deleted by an admin, no
    request is authenticated as that account any more, [optionalAuth]
    attaches it to no request, and no refresh token yields an access token
    for it, whatever tokens it holds. *)
Theorem removed_account_has_no_session admin_user target
    (users users' : gmap ObjectId User.t) r :
  UserController.deactivateUser admin_user target users = (r, users')
  ∨ UserController.deleteUser admin_user target users = (r, users') →
  status r = 200 →
  ∀ cfg now,
    (∀ hdr u, AuthMiddleware.authenticate cfg now hdr users' = inr u → id u ≠ target)
    ∧ (∀ hdr u, AuthMiddleware.optionalAuth cfg now hdr users' = Some u → id u ≠ target)
    ∧ (∀ token resp key c,
         AuthController.refreshToken cfg now token users'
         = (resp, Some (Jwt.SignedAccess key c)) →
         Jwt.sub c ≠ target).
Proof.
  intros Hop Hst cfg now.
  assert (∀ u, users' !! target = Some u → User.isActive u = false) as Hgone.
  { destruct Hop as [Heq|Heq].
    - unfold UserController.deactivateUser in Heq.
      case_bool_decide; [by simplify_eq|].
      destruct (users !! target); simplify_eq.
      intros u. rewrite lookup_insert_eq. by intros [= <-].
    - unfold UserController.deleteUser in Heq.
      case_bool_decide; [by simplify_eq|].
      destruct (users !! target); simplify_eq.
      intros u. by rewrite lookup_delete_eq. }
  split; [|split].
  - intros hdr u. unfold AuthMiddleware.authenticate.
    destruct hdr as [[tok|]|]; try done.
    destruct (Jwt.verifyAccessToken cfg now tok) as [msg|payload]; [done|].
    destruct (users' !! Jwt.sub payload) as [user|] eqn:Hu; [|done].
    destruct (User.isActive user) eqn:Ha; [|done]. simpl.
    destruct (User.passwordChangedAfter _ _); [done|].
    intros [= <-] Heq. simpl in Heq. rewrite Heq in Hu.
    apply Hgone in Hu. congruence.
  - intros hdr u. unfold AuthMiddleware.optionalAuth.
    destruct hdr as [[tok|]|]; try done.
    destruct (Jwt.verifyAccessToken cfg now tok) as [msg|payload]; [done|].
    destruct (users' !! Jwt.sub payload) as [user|] eqn:Hu; [|done].
    destruct (User.isActive user) eqn:Ha; [|done].
    intros [= <-] Heq. simpl in Heq. rewrite Heq in Hu.
    apply Hgone in Hu. congruence.
  - intros token resp key c. unfold AuthController.refreshToken.
    destruct token as [tok|]; [|done].
    destruct (Jwt.verifyRefreshToken cfg now tok) as [msg|sub]; [done|].
    destruct (users' !! sub) as [user|] eqn:Hu; [|done].
    destruct (User.isActive user) eqn:Ha; [|done]. simpl.
    unfold Jwt.generateAccessToken. intros [= _ _ <-] Heq. simpl in Heq.
    rewrite Heq in Hu. apply Hgone in Hu. congruence.
Qed.

Lemma removed_account_has_no_session_witness :
  let after := UserController.deactivateUser Example.rootCtx "u1" Example.users in
  let hdr := Some (AuthMiddleware.Bearer
                     (Jwt.generateAccessToken Example.cfg 1000000 "u1" developer)) in
  status after.1 = 200
  ∧ (∀ u, AuthMiddleware.authenticate Example.cfg 1060000 hdr after.2 = inr u → id u ≠ "u1")
  ∧ AuthMiddleware.authenticate Example.cfg 1060000 hdr after.2
    = inl (mkResponse 401 false "User not found or account is inactive").
Proof.
  intros after hdr.
  assert (status after.1 = 200) as Hst by reflexivity.
  split; [exact Hst|]. split; [|reflexivity].
  exact (proj1 (removed_account_has_no_session Example.rootCtx "u1" Example.users
                  after.2 after.1 (or_introl eq_refl) Hst Example.cfg 1060000) hdr).
Defined.

(** ** Lockout, continued (models/User.js, controllers/authController.js) *)

Lemma findOne_lookup name uid u (users : gmap ObjectId User.t) :
  AuthController.findOne name users = Some (uid, u) → users !! uid = Some u.
Proof.
  unfold AuthController.findOne. intros [Hin _]%find_some.
  by apply list_elem_of_In, elem_of_map_to_list in Hin.
Qed.

(** X9. Fewer failures than the threshold do not lock: after any number
    of consecutive failed logins that keeps the count below 5, a login
    with the right secret succeeds, puts the count back to 0, leaves no
    lock and records the time of the login. *)
Theorem few_failures_then_success bcrypt_compare cfg name uid u
    (users : gmap ObjectId User.t) (attempts : list (Z * string)) now good :
  users !! uid = Some u →
  AuthController.matchesLogin name u = true →
  soleMatch name uid users →
  User.isActive u = true →
  User.mfaEnabled u = false →
  User.lockUntil u = None →
  User.loginAttempts u + Z.of_nat (length attempts) < User.maxAttempts →
  Forall (λ a, AuthController.verifyPassword bcrypt_compare u a.2 = false) attempts →
  AuthController.verifyPassword bcrypt_compare u good = true →
  ∃ users1 access refresh u',
    loginAll bcrypt_compare cfg name attempts users
    = (replicate (length attempts) invalidCredentials, users1)
    ∧ AuthController.login bcrypt_compare cfg now name good users1
      = (mkResponse 200 true "Login successful",
         AuthController.Tokens access refresh, <[uid := u']> users1)
    ∧ User.loginAttempts u' = 0
    ∧ User.lockUntil u' = None
    ∧ User.lastLogin u' = Some now.
Proof.
  intros Hu Hm Hsole Hact Hmfa Hlk Hcnt Hw Hgood.
  destruct (failed_logins_below_threshold bcrypt_compare cfg name uid attempts users u)
    as (v & Hr & Hs & Hsame & Hlv & Hcv); try done.
  destruct (loginAll bcrypt_compare cfg name attempts users) as [rs users1].
  simpl in Hr, Hs. subst rs users1.
  pose proof Hsame as (Hn & He & Hp & Hrole & Ha & Hmf).
  eexists _, _, _, (User.resetLoginAttempts now v). split; [done|]. split; [|done].
  apply (login_right_secret bcrypt_compare cfg name uid now good v).
  - by rewrite lookup_insert_eq.
  - by rewrite (sameAccount_matchesLogin name u v).
  - by apply soleMatch_insert.
  - unfold User.isLocked. by rewrite Hlv.
  - congruence.
  - congruence.
  - unfold AuthController.verifyPassword in *. by rewrite <- Hp.
Qed.

Lemma few_failures_then_success_witness :
  let a := λ (k : Z), (k * 1000, "WrongPassword@1") in
  soleMatch "alice@example.com" "u1" Example.users
  ∧ ∃ users1 access refresh u',
      loginAll Example.compare Example.cfg "alice@example.com" [a 1; a 2; a 3; a 4]
        Example.users
      = (replicate 4 invalidCredentials, users1)
      ∧ AuthController.login Example.compare Example.cfg 5000 "alice@example.com"
          "OldPassword@1" users1
        = (mkResponse 200 true "Login successful",
           AuthController.Tokens access refresh, <["u1" := u']> users1)
      ∧ User.loginAttempts u' = 0
      ∧ User.lockUntil u' = None
      ∧ User.lastLogin u' = Some 5000.
Proof.
  intros a.
  assert (soleMatch "alice@example.com" "u1" Example.users) as Hsole.
  { apply (bool_decide_unpack _). vm_compute. exact I. }
  split; [exact Hsole|].
  apply (few_failures_then_success Example.compare Example.cfg "alice@example.com" "u1"
           Example.alice Example.users [a 1; a 2; a 3; a 4] 5000 "OldPassword@1");
    try reflexivity; try exact Hsole.
  repeat constructor.
Defined.

(** X10. A login request writes nothing but the failure count, the lock
    and the last-login time, and only on the account the name resolves
    to: no account is created or removed, and names, digests, roles and
    active flags stay as they were, whatever the request. *)
Theorem login_only_writes_login_state bcrypt_compare cfg now name secret
    (users : gmap ObjectId User.t) :
  let users' := (AuthController.login bcrypt_compare cfg now name secret users).2 in
  sameUpToLoginState users users'
  ∧ match AuthController.findOne name users with
    | Some (uid, _) => ∀ k, k ≠ uid → users' !! k = users !! k
    | None => users' = users
    end.
Proof.
  unfold AuthController.login.
  destruct (AuthController.findOne name users) as [[uid u]|] eqn:Hf; [|done].
  apply findOne_lookup in Hf.
  assert (∀ v, eraseLoginState v = eraseLoginState u →
               sameUpToLoginState users (<[uid := v]> users)) as Hins.
  { intros v Hv k. destruct (decide (uid = k)) as [<-|Hne].
    - by rewrite lookup_insert_eq, Hf; simpl; rewrite Hv.
    - by rewrite lookup_insert_ne. }
  destruct (User.isLocked now u); [done|].
  destruct (negb (User.isActive u)); [done|].
  destruct (negb _); simpl.
  - split; [|by intros k Hk; rewrite lookup_insert_ne].
    apply Hins. unfold User.incLoginAttempts.
    destruct (match User.lockUntil u with Some _ => _ | None => _ end); [done|].
    by case_bool_decide.
  - destruct (User.mfaEnabled u); simpl; [done|].
    split; [by apply Hins|by intros k Hk; rewrite lookup_insert_ne].
Qed.

(** X11. A failed login on an account whose lock has run out, that is
    with [lockUntil] strictly before the time of the request: the login is
    answered 401, the count restarts at 1 and the lock is removed,
    whatever the count was, and nothing else of the account is written.
    The document written is the same whenever [incLoginAttempts] reads
    the clock, at the time of the lock check or later. *)
Theorem failed_login_after_lock bcrypt_compare cfg name uid u
    (users : gmap ObjectId User.t) now secret l :
  users !! uid = Some u →
  AuthController.matchesLogin name u = true →
  soleMatch name uid users →
  User.isActive u = true →
  User.lockUntil u = Some l →
  l < now →
  AuthController.verifyPassword bcrypt_compare u secret = false →
  let u' := User.with_lockUntil None (User.with_loginAttempts 1 u) in
  AuthController.login bcrypt_compare cfg now name secret users
  = (invalidCredentials, AuthController.NoData, <[uid := u']> users)
  ∧ (∀ later, now ≤ later → User.incLoginAttempts later u = u').
Proof.
  intros Hu Hm Hsole Hact Hl Hlt Hw u'.
  assert (∀ later, now ≤ later → User.incLoginAttempts later u = u') as Hinc.
  { intros later Hle. unfold User.incLoginAttempts. rewrite Hl.
    rewrite bool_decide_eq_true_2 by lia. done. }
  split; [|exact Hinc].
  rewrite <- (Hinc now) by lia.
  apply (login_wrong_secret bcrypt_compare cfg name uid now secret u); try done.
  unfold User.isLocked. rewrite Hl. apply bool_decide_eq_false_2. lia.
Qed.

Lemma failed_login_after_lock_witness :
  let locked := User.with_lockUntil (Some 9000000) (User.with_loginAttempts 5 Example.alice) in
  let users := <["u1" := locked]> Example.users in
  User.isLocked 8999999 locked = true
  ∧ ∃ u', AuthController.login Example.compare Example.cfg 9000001 "alice@example.com"
            "WrongPassword@1" users
          = (invalidCredentials, AuthController.NoData, <["u1" := u']> users)
          ∧ User.loginAttempts u' = 1 ∧ User.lockUntil u' = None.
Proof.
  intros locked users. split; [reflexivity|].
  assert (soleMatch "alice@example.com" "u1" users) as Hsole.
  { apply (bool_decide_unpack _). vm_compute. exact I. }
  pose proof (proj1 (failed_login_after_lock Example.compare Example.cfg
                       "alice@example.com" "u1" locked users 9000001 "WrongPassword@1"
                       9000000 eq_refl eq_refl Hsole eq_refl eq_refl ltac:(lia) eq_refl))
    as Hlogin.
  eexists. split; [exact Hlogin|]. split; reflexivity.
Defined.

(** ** Project access, continued (controllers/projectController.js) *)

Lemma existsb_some_getId (l : list Ref) uid :
  existsb (λ dev, idEq (getId dev) uid) l = existsb (λ d, idEq d uid) (map getId l).
Proof. induction l as [|r l IH]; simpl; [done|]. by rewrite IH. Qed.

(** X12. The project read check is the same function in the three
    controllers that carry a copy of it, the upload check of the document
    controller is the modify check of the project controller, and whoever
    may modify a project may read it. *)
Theorem project_checks_agree (u : ReqUser) (p : Project) :
  MessageController.hasProjectAccess u p = ProjectController.hasProjectAccess u p
  ∧ DocumentController.canAccessProject u p = ProjectController.hasProjectAccess u p
  ∧ DocumentController.canUploadToProject u p = ProjectController.canModifyProject u p
  ∧ (ProjectController.canModifyProject u p = true →
     ProjectController.hasProjectAccess u p = true).
Proof.
  split; [done|]. split; [|split; [done|]].
  - unfold DocumentController.canAccessProject, ProjectController.hasProjectAccess.
    destruct (assignedDevelopers p) as [l|]; simpl; [|done].
    by rewrite existsb_some_getId.
  - unfold ProjectController.canModifyProject, ProjectController.hasProjectAccess.
    destruct (bool_decide (role u = admin)); [done|].
    by destruct (bool_decide (role u = project_lead) && _).
Qed.


Lemma listFilter_matches (u : ReqUser) (p : Project) :
  ProjectController.matches (ProjectController.listFilter u) p
  = ProjectController.hasProjectAccess u p.
Proof.
  unfold ProjectController.listFilter, ProjectController.hasProjectAccess,
    ProjectController.matches.
  destruct (role u); simpl; [done|by destruct (_ || _)|].
  destruct (existsb _ _) eqn:E.
  - apply bool_decide_eq_true_2. by apply existsb_idEq_assigned.
  - apply bool_decide_eq_false_2. rewrite <- existsb_idEq_assigned. congruence.
Qed.

(** X14. Listing and reading agree: a project is in the answer of
    [listProjects] exactly when it is stored and the read check allows the
    subject to read it. *)
Theorem listProjects_lists_the_readable (u : ReqUser) (projects : gmap ObjectId Project) k p :
  ProjectController.listProjects u projects !! k = Some p
  ↔ projects !! k = Some p ∧ ProjectController.hasProjectAccess u p = true.
Proof.
  unfold ProjectController.listProjects. rewrite map_lookup_filter_Some. simpl.
  by rewrite listFilter_matches.
Qed.

Lemma idEq_populateRef (users : gmap ObjectId User.t) r uid :
  is_Some (users !! uid) →
  idEq (getId (ProjectController.populateRef users r)) uid = idEq (getId r) uid.
Proof.
  intros Hu. unfold ProjectController.populateRef.
  destruct (getId r) as [i|] eqn:E; [|done].
  case_bool_decide as Hi; simpl; [done|].
  symmetry. apply bool_decide_eq_false_2. by intros ->.
Qed.

Lemma existsb_populateRefs (users : gmap ObjectId User.t) l uid :
  is_Some (users !! uid) →
  existsb (λ d, idEq d uid) (map getId (ProjectController.populateRefs users l))
  = existsb (λ d, idEq d uid) (map getId l).
Proof.
  intros Hu. unfold ProjectController.populateRefs.
  induction l as [|r l IH]; [done|].
  rewrite fmap_cons, filter_cons. simpl.
  rewrite <- IH, <- (idEq_populateRef users r uid Hu).
  destruct (decide (is_Some (getId (ProjectController.populateRef users r)))) as [Hs|Hn];
    [done|].
  destruct (getId (ProjectController.populateRef users r)); [|done].
  exfalso. apply Hn. by eexists.
Qed.

Lemma hasProjectAccess_populate (users : gmap ObjectId User.t) u p :
  is_Some (users !! id u) →
  ProjectController.hasProjectAccess u (ProjectController.populate users p)
  = ProjectController.hasProjectAccess u p.
Proof.
  intros Hu. unfold ProjectController.hasProjectAccess. simpl.
  rewrite !idEq_populateRef by done.
  destruct (assignedDevelopers p) as [l|]; simpl; [|done].
  by rewrite existsb_populateRefs.
Qed.

(** X15. For a subject whose own user document exists, populating the
    references does not change the read decision: [getProject] answers 404
    for an unknown id, 403 for a project the subject may not read, and 200
    with the populated project otherwise, so it answers 200 exactly for
    the projects that [listProjects] returns to that subject. *)
Theorem getProject_agrees_with_listing (u : ReqUser) pid
    (users : gmap ObjectId User.t) (projects : gmap ObjectId Project) :
  is_Some (users !! id u) →
  ProjectController.getProject u pid users projects
  = match projects !! pid with
    | None => (mkResponse 404 false "Project not found", None)
    | Some p =>
        if ProjectController.hasProjectAccess u p
        then (mkResponse 200 true "", Some (ProjectController.populate users p))
        else (mkResponse 403 false "You do not have access to this project", None)
    end
  ∧ (status (ProjectController.getProject u pid users projects).1 = 200
     ↔ is_Some (ProjectController.listProjects u projects !! pid)).
Proof.
  intros Hu.
  assert (ProjectController.getProject u pid users projects
          = match projects !! pid with
            | None => (mkResponse 404 false "Project not found", None)
            | Some p =>
                if ProjectController.hasProjectAccess u p
                then (mkResponse 200 true "", Some (ProjectController.populate users p))
                else (mkResponse 403 false "You do not have access to this project", None)
            end) as Heq.
  { unfold ProjectController.getProject.
    destruct (projects !! pid) as [p|]; simpl; [|done].
    rewrite hasProjectAccess_populate by done.
    by destruct (ProjectController.hasProjectAccess u p). }
  split; [exact Heq|]. rewrite Heq.
  unfold ProjectController.listProjects.
  destruct (projects !! pid) as [p|] eqn:Hp.
  - destruct (ProjectController.hasProjectAccess u p) eqn:Ha; simpl.
    + split; [|done]. intros _. exists p.
      apply map_lookup_filter_Some. simpl. by rewrite listFilter_matches.
    + split; [done|]. intros [q Hq].
      apply map_lookup_filter_Some in Hq as [Hq1 Hq2]. simpl in Hq2.
      rewrite listFilter_matches in Hq2. congruence.
  - simpl. split; [done|]. intros [q Hq].
    apply map_lookup_filter_Some in Hq as [Hq1 Hq2]. congruence.
Qed.

Lemma getProject_agrees_with_listing_witness :
  let users := <["d1" := Example.alice]> Example.users in
  is_Some (users !! id Example.devCtx)
  ∧ (ProjectController.getProject Example.devCtx "p1" users Example.projects).1
    = mkResponse 200 true ""
  ∧ is_Some (ProjectController.listProjects Example.devCtx Example.projects !! "p1").
Proof.
  intros users.
  assert (is_Some (users !! id Example.devCtx)) as Hu by (by eexists).
  destruct (getProject_agrees_with_listing Example.devCtx "p1" users Example.projects Hu)
    as [Heq Hiff].
  split; [exact Hu|]. split.
  - rewrite Heq. reflexivity.
  - apply Hiff. rewrite Heq. reflexivity.
Defined.

Lemma size_list_to_set_le (l : list ObjectId) :
  (size (list_to_set l : gset ObjectId) ≤ length l)%nat.
Proof.
  induction l as [|x l IH].
  - by rewrite list_to_set_nil, size_empty.
  - rewrite list_to_set_cons. simpl length.
    destruct (decide (x ∈ l)) as [Hin|Hnot].
    + assert ({[x]} ∪ list_to_set l = (list_to_set l : gset ObjectId)) as ->
      by (apply subseteq_union_1_L, singleton_subseteq_l; by apply elem_of_list_to_set).
      lia.
    + rewrite size_union
        by (apply disjoint_singleton_l; by rewrite elem_of_list_to_set).
      rewrite size_singleton. lia.
Qed.

Lemma size_list_to_set_NoDup (l : list ObjectId) :
  size (list_to_set l : gset ObjectId) = length l → NoDup l.
Proof.
  induction l as [|x l IH]; [constructor|].
  rewrite list_to_set_cons. simpl length.
  destruct (decide (x ∈ l)) as [Hin|Hnot].
  - assert ({[x]} ∪ list_to_set l = (list_to_set l : gset ObjectId)) as ->
      by (apply subseteq_union_1_L, singleton_subseteq_l; by apply elem_of_list_to_set).
    pose proof (size_list_to_set_le l). lia.
  - rewrite size_union
      by (apply disjoint_singleton_l; by rewrite elem_of_list_to_set).
    rewrite size_singleton. intros Hs. constructor; [done|]. apply IH. lia.
Qed.

Lemma findDevelopers_lookup ids (users : gmap ObjectId User.t) d :
  d ∈ dom (ProjectController.findDevelopers ids users)
  ↔ d ∈ ids ∧ ∃ u, users !! d = Some u ∧ User.role u = developer.
Proof.
  rewrite elem_of_dom. unfold ProjectController.findDevelopers, is_Some.
  setoid_rewrite map_lookup_filter_Some. simpl.
  split; [intros (x & ? & ? & ?)|intros (? & x & ? & ?)]; eauto 6.
Qed.

(** X16. The developer check of [createProject] and [updateProject]
    accepts a list of ids exactly when every id names a stored user whose
    role is developer and no id occurs twice: a list that repeats a
    developer is refused like one that names a non-developer.  Whether the
    developers are active plays no part. *)
Theorem developersAccepted_iff (ids : list ObjectId) (users : gmap ObjectId User.t) :
  ProjectController.developersAccepted ids users = true
  ↔ NoDup ids ∧ ∀ d, d ∈ ids → ∃ u, users !! d = Some u ∧ User.role u = developer.
Proof.
  unfold ProjectController.developersAccepted. rewrite bool_decide_eq_true.
  rewrite <- (size_dom (D := gset ObjectId)).
  set (found := dom (ProjectController.findDevelopers ids users)).
  assert (found ⊆ list_to_set ids) as Hsub.
  { intros d [Hd _]%findDevelopers_lookup. by apply elem_of_list_to_set. }
  split.
  - intros Hsize.
    pose proof (size_list_to_set_le ids) as Hle.
    pose proof (subseteq_size _ _ Hsub) as Hle'.
    assert (found = list_to_set ids) as Heq
      by (apply set_subseteq_size_eq; [done|lia]).
    split.
    + apply size_list_to_set_NoDup. lia.
    + intros d Hd.
      assert (d ∈ found) as Hf by (rewrite Heq; by apply elem_of_list_to_set).
      by apply findDevelopers_lookup in Hf as [_ ?].
  - intros [Hnd Hall].
    assert (found = list_to_set ids) as ->.
    { apply set_eq. intros d. rewrite elem_of_list_to_set.
      unfold found. rewrite findDevelopers_lookup.
      split; [by intros [? _]|]. intros Hd. split; [done|]. by apply Hall. }
    by apply size_list_to_set.
Qed.

Lemma project_gone_alter {A} (f : A → A) k (m : gmap ObjectId A) :
  m !! k = None → alter f k m = m.
Proof.
  intros Hk. apply map_eq. intros j. destruct (decide (k = j)) as [->|Hne].
  - by rewrite lookup_alter_eq, Hk.
  - by rewrite lookup_alter_ne.
Qed.

(** X17. Deleting a project leaves its messages behind, and a
    completion request left behind can still be reviewed by an admin: the
    review is answered 200 and written to the message while the project
    collection stays as it is; the same review by a project lead is
    answered 500 and changes nothing. *)
Theorem review_after_project_deleted now (a u : ReqUser) pid mid approved response
    (projects : gmap ObjectId Project) (messages : gmap ObjectId Message) m :
  role a = admin →
  is_Some (projects !! pid) →
  messages !! mid = Some m →
  MessageController.isPending pid m →
  Z.of_nat (String.length (default "" response)) ≤ 1000 →
  let deleted := ProjectController.deleteProject a pid projects in
  deleted = (mkResponse 200 true "Project deleted successfully", delete pid projects)
  ∧ MessageController.reviewCompletionRequest now u mid approved response deleted.2 messages
    = match role u with
      | admin =>
          (mkResponse 200 true
             (if approved then "Project marked as completed"
              else "Completion request rejected"),
           deleted.2,
           <[mid := MessageController.reviewed now u approved response m]> messages)
      | project_lead => (internalError, deleted.2, messages)
      | developer =>
          (mkResponse 403 false
             "Only admins and project leads can review completion requests",
           deleted.2, messages)
      end.
Proof.
  intros Ha [p Hp] Hm (Hpid & Hty & Hnone) Hlen deleted.
  assert (deleted = (mkResponse 200 true "Project deleted successfully",
                     delete pid projects)) as Hdel.
  { unfold deleted, ProjectController.deleteProject. by rewrite Hp, Ha. }
  split; [exact Hdel|]. rewrite Hdel. simpl.
  unfold MessageController.reviewCompletionRequest. rewrite Hm, Hty, Hnone, Hpid.
  rewrite lookup_delete_eq.
  destruct (role u) eqn:Hr; simpl; try done.
  rewrite bool_decide_eq_false_2 by lia.
  destruct approved; [|done].
  by rewrite project_gone_alter by apply lookup_delete_eq.
Qed.

Lemma review_after_project_deleted_witness :
  let deleted := ProjectController.deleteProject Example.rootCtx "p1" Example.projects in
  deleted = (mkResponse 200 true "Project deleted successfully", delete "p1" Example.projects)
  ∧ MessageController.reviewCompletionRequest 5000 Example.leadCtx "m1" true None
      deleted.2 Example.messages
    = (internalError, deleted.2, Example.messages).
Proof.
  intros deleted.
  exact (review_after_project_deleted 5000 Example.rootCtx Example.leadCtx "p1" "m1" true None
           Example.projects Example.messages Example.request eq_refl
           (ex_intro _ Example.project eq_refl) eq_refl
           (conj eq_refl (conj eq_refl eq_refl)) ltac:(by vm_compute)).
Defined.

(** ** Messages, continued (controllers/messageController.js) *)

Lemma userProjects_lookup (u : ReqUser) (projects : gmap ObjectId Project) pid :
  is_Some (filter (λ kv : ObjectId * Project,
                     idEq (getId (projectLead kv.2)) (id u)
                     || idEq (getId (createdBy kv.2)) (id u) = true) projects !! pid)
  ↔ ∃ p, projects !! pid = Some p ∧ ownsOrLeads u p.
Proof.
  unfold is_Some, ownsOrLeads. setoid_rewrite map_lookup_filter_Some. simpl.
  setoid_rewrite orb_true_iff. setoid_rewrite idEq_true. done.
Qed.

(** X18. What [getPendingCompletionRequests] shows is what can be
    reviewed: a developer is answered 403 with nothing; for an admin or a
    project lead, a message is in the answer exactly when a review of it
    by that subject (with a response of at most 1000 characters) is
    answered 200. *)
Theorem pending_list_is_what_can_be_reviewed (u : ReqUser)
    (projects : gmap ObjectId Project) (messages : gmap ObjectId Message) :
  (role u = developer →
   MessageController.getPendingCompletionRequests u projects messages
   = (mkResponse 403 false "Access denied", ∅))
  ∧ (role u ≠ developer →
     ∀ k now approved response,
       Z.of_nat (String.length (default "" response)) ≤ 1000 →
       is_Some ((MessageController.getPendingCompletionRequests u projects messages).2 !! k)
       ↔ status (MessageController.reviewCompletionRequest now u k approved response
                   projects messages).1.1 = 200).
Proof.
  split.
  { intros Hr. unfold MessageController.getPendingCompletionRequests. by rewrite Hr. }
  intros Hr k now approved response Hlen.
  assert (role u ∈ [admin; project_lead]) as Hin.
  { destruct (role u); [apply list_elem_of_here|apply list_elem_of_further,
      list_elem_of_here|done]. }
  unfold MessageController.getPendingCompletionRequests.
  rewrite (bool_decide_eq_true_2 _ Hin). simpl.
  unfold is_Some at 1. setoid_rewrite map_lookup_filter_Some. simpl.
  split.
  - intros (m & Hm & Hvis & Hty & Hnone).
    unfold MessageController.reviewCompletionRequest.
    rewrite (bool_decide_eq_true_2 _ Hin), Hm, Hty, Hnone. simpl.
    rewrite (bool_decide_eq_false_2 (1000 < _)) by lia.
    case_bool_decide as Hadm; [done|].
    assert (role u = project_lead) as Hlead by (by destruct (role u)).
    apply Hvis, userProjects_lookup in Hlead as (p & Hp & Hown).
    rewrite Hp. simpl.
    by rewrite (proj2 (hasProjectAccess_project_lead u p
                         ltac:(by destruct (role u))) Hown).
  - intros Hst.
    destruct (reviewCompletionRequest_cases now u k approved response projects messages)
      as [(_ & _ & _ & Hbad)|(m & Hm & Hty & Hnone & Hwho & _)].
    { rewrite Hst in Hbad. apply list_elem_of_In in Hbad. simpl in Hbad.
      intuition discriminate. }
    exists m. split; [done|]. split; [|done].
    intros Hlead. apply userProjects_lookup.
    destruct Hwho as [Hadm|[_ Hown]]; [congruence|done].
Qed.

Lemma pending_list_is_what_can_be_reviewed_witness :
  Example.leadCtx.(role) ≠ developer
  ∧ is_Some ((MessageController.getPendingCompletionRequests Example.leadCtx
                Example.projects Example.messages).2 !! "m1")
  ∧ status (MessageController.reviewCompletionRequest 5000 Example.leadCtx "m1" false
              (Some "Not yet") Example.projects Example.messages).1.1 = 200.
Proof.
  assert (role Example.leadCtx ≠ developer) as Hr by discriminate.
  assert (status (MessageController.reviewCompletionRequest 5000 Example.leadCtx "m1" false
                    (Some "Not yet") Example.projects Example.messages).1.1 = 200)
    as Hst by reflexivity.
  split; [exact Hr|]. split; [|exact Hst].
  exact (proj2 (proj2 (pending_list_is_what_can_be_reviewed Example.leadCtx
                         Example.projects Example.messages) Hr "m1" 5000 false
                  (Some "Not yet") ltac:(by vm_compute)) Hst).
Defined.

(** X19. Only the completion-request type is gated.  Any subject with
    read access to the project can store a message of any other type of
    the enum, completion-approved and completion-rejected included: it is
    created under the subject's own id with no reviewer, it is not an
    outstanding request of any project, and it can never be reviewed. *)
Theorem sendMessage_stores_other_types (u : ReqUser) pid p content ty kind nid
    (projects : gmap ObjectId Project) (messages : gmap ObjectId Message) :
  projects !! pid = Some p →
  MessageController.hasProjectAccess u p = true →
  validContent content →
  parse_messageType ty = Some kind →
  kind ≠ mt_completion_request →
  messages !! nid = None →
  let stored := mkMessage pid (id u) (trim content) kind None None None in
  MessageController.sendMessage u pid (Some content) (Some ty) nid projects messages
  = (mkResponse 201 true "Message sent successfully", <[nid := stored]> messages)
  ∧ (∀ pid', MessageController.pendingRequest pid' (<[nid := stored]> messages)
             = MessageController.pendingRequest pid' messages)
  ∧ (∀ now v approved response projects',
       let res := MessageController.reviewCompletionRequest now v nid approved response
                    projects' (<[nid := stored]> messages) in
       res.1.2 = projects' ∧ res.2 = <[nid := stored]> messages
       ∧ success res.1.1 = false).
Proof.
  intros Hp Ha [Hc1 Hc2]%validContent_check Hk Hkind Hfresh stored.
  assert (ty ≠ "completion-request") as Hty.
  { intros ->. apply Hkind. by injection Hk as <-. }
  split; [|split].
  - unfold MessageController.sendMessage. cbv zeta. simpl default.
    rewrite Hc1, Hp, Ha. simpl.
    rewrite (bool_decide_eq_false_2 _ Hty). simpl.
    by rewrite Hk, Hc2, Hfresh.
  - intros pid'. unfold MessageController.pendingRequest. apply bool_decide_ext.
    split.
    + intros (k & m & Hm & Hpend). destruct (decide (k = nid)) as [->|Hne].
      * rewrite lookup_insert_eq in Hm. simplify_eq.
        destruct Hpend as (_ & Hbad & _). done.
      * rewrite lookup_insert_ne in Hm by done. by exists k, m.
    + intros (k & m & Hm & Hpend). exists k, m. split; [|done].
      rewrite lookup_insert_ne; [done|]. intros <-. congruence.
  - intros now v approved response projects' res.
    destruct (reviewCompletionRequest_not_a_request now v nid approved response stored
                projects' (<[nid := stored]> messages)) as (H1 & H2 & H3 & _);
      [by rewrite lookup_insert_eq|done|done].
Qed.

Lemma sendMessage_stores_other_types_witness :
  let stored := mkMessage "p1" "d1" "Approved by me" mt_completion_approved None None None in
  validContent " Approved by me "
  ∧ MessageController.sendMessage Example.devCtx "p1" (Some " Approved by me ")
      (Some "completion-approved") "m2" Example.projects Example.messages
    = (mkResponse 201 true "Message sent successfully", <["m2" := stored]> Example.messages)
  ∧ (∀ pid', MessageController.pendingRequest pid' (<["m2" := stored]> Example.messages)
             = MessageController.pendingRequest pid' Example.messages)
  ∧ (∀ now v approved response projects',
       let res := MessageController.reviewCompletionRequest now v "m2" approved response
                    projects' (<["m2" := stored]> Example.messages) in
       res.1.2 = projects' ∧ res.2 = <["m2" := stored]> Example.messages
       ∧ success res.1.1 = false).
Proof.
  intros stored.
  assert (validContent " Approved by me ") as Hc
    by (repeat split; [done|done|by vm_compute]).
  split; [exact Hc|].
  exact (sendMessage_stores_other_types Example.devCtx "p1" Example.project
           " Approved by me " "completion-approved" mt_completion_approved "m2"
           Example.projects Example.messages eq_refl eq_refl Hc eq_refl
           ltac:(discriminate) eq_refl).
Defined.

(** ** Documents, continued (controllers/documentController.js) *)

Lemma someAccess_decides uid (l : list AccessEntry) :
  Forall (λ e, is_Some (userId e)) l →
  DocumentController.someAccess uid l = Some (bool_decide (Some uid ∈ userId <$> l)).
Proof.
  intros Hall. destruct (decide (Some uid ∈ userId <$> l)) as [Hin|Hnot].
  - rewrite (bool_decide_eq_true_2 _ Hin).
    induction Hall as [|e l [i Hi] Hall IH]; [by apply elem_of_nil in Hin|].
    simpl. rewrite Hi. case_bool_decide as Hiu; [done|].
    apply IH. rewrite fmap_cons, Hi in Hin.
    apply elem_of_cons in Hin as [Hin|Hin]; [congruence|done].
  - rewrite (bool_decide_eq_false_2 _ Hnot). by apply someAccess_false.
Qed.

(** X20. A developer never writes documents: whatever the project, also
    one the developer is assigned to, an upload or a metadata update
    requested by a subject with role developer is refused and leaves the
    collection as it was. *)
Theorem developers_never_write_documents extname toLowerCase config env (u : ReqUser)
    pid file cls docId newCls newList
    (projects : gmap ObjectId Project) (documents : gmap ObjectId Document) :
  role u = developer →
  let up := DocumentController.uploadDocument extname toLowerCase config env u pid file cls
              projects documents in
  let upd := DocumentController.updateDocument u docId newCls newList projects documents in
  up.2 = documents ∧ success up.1 = false ∧ status up.1 ∈ [400; 403; 404]
  ∧ upd.2 = documents ∧ success upd.1 = false ∧ status upd.1 ∈ [403; 404].
Proof.
  intros Hr up upd.
  assert (∀ p, DocumentController.canUploadToProject u p = false) as Hno.
  { intros p. unfold DocumentController.canUploadToProject. by rewrite Hr. }
  subst up upd.
  unfold DocumentController.uploadDocument, DocumentController.updateDocument.
  destruct file as [file|]; destruct (projects !! pid) as [p|];
    rewrite ?Hno; simpl;
    (destruct (documents !! docId) as [d|]; [|refused]);
    (destruct (projects !! d_project d) as [p'|]; [|refused]);
    rewrite ?Hno; refused.
Qed.

Lemma developers_never_write_documents_witness :
  let env := DocumentController.mkUploadEnv "notes_1700000000000_9f3a.pdf" "2c26b46b"
               (Some ("https://cdn.example.com/notes", "pixelforge-documents/p1/notes"))
               "doc2" in
  let file := Some (DocumentController.mkFile "notes.pdf" 2048 "application/pdf") in
  role Example.devCtx = developer
  ∧ ProjectController.hasProjectAccess Example.devCtx Example.project = true
  ∧ (DocumentController.uploadDocument (λ _, ".pdf") (λ s, s) DocumentController.defaultConfig
       env Example.devCtx "p1" file None Example.projects Example.documents).2
    = Example.documents
  ∧ (DocumentController.updateDocument Example.devCtx "doc1" (Some "public") None
       Example.projects Example.documents).2 = Example.documents.
Proof.
  intros env file. split; [reflexivity|]. split; [reflexivity|].
  destruct (developers_never_write_documents (λ _, ".pdf") (λ s, s)
              DocumentController.defaultConfig env Example.devCtx "p1" file None "doc1"
              (Some "public") None Example.projects Example.documents eq_refl)
    as (H1 & _ & _ & H2 & _).
  split; [exact H1|exact H2].
Defined.

(** X21. The audit trail only grows, by one entry per successful read:
    a view or download that is allowed appends one entry with the reader's
    id, the action and the time to the document's log and changes nothing
    else in it; a read that is not allowed changes nothing; no other
    document is touched either way. *)
Theorem reads_append_to_the_audit_trail now (u : ReqUser) docId
    (documents : gmap ObjectId Document) d :
  documents !! docId = Some d →
  let viewed := DocumentController.viewDocument now u docId documents in
  let downloaded := DocumentController.downloadDocument now u docId documents in
  (∀ k, k ≠ docId →
        viewed.2 !! k = documents !! k ∧ downloaded.2 !! k = documents !! k)
  ∧ match DocumentController.canAccessDocument u d with
    | Some true =>
        ∃ d1 d2,
          viewed = (mkResponse 200 true "", <[docId := d1]> documents)
          ∧ downloaded = (mkResponse 302 true "", <[docId := d2]> documents)
          ∧ accessLog d1 = accessLog d ++ [mkAccessLogEntry (id u) "viewed" now]
          ∧ accessLog d2 = accessLog d ++ [mkAccessLogEntry (id u) "downloaded" now]
          ∧ eraseAccessLog d1 = eraseAccessLog d
          ∧ eraseAccessLog d2 = eraseAccessLog d
    | _ =>
        viewed.2 = documents ∧ downloaded.2 = documents
        ∧ success viewed.1 = false ∧ success downloaded.1 = false
    end.
Proof.
  intros Hd viewed downloaded. subst viewed downloaded.
  unfold DocumentController.viewDocument, DocumentController.downloadDocument,
    DocumentController.readDocument.
  rewrite Hd.
  destruct (DocumentController.canAccessDocument u d) as [[]|]; simpl.
  - split; [by intros k Hk; rewrite !lookup_insert_ne|].
    by eexists _, _.
  - by split.
  - by split.
Qed.

Lemma reads_append_to_the_audit_trail_witness :
  let viewed := DocumentController.viewDocument 7000 Example.devCtx "doc1" Example.documents in
  Example.documents !! "doc1" = Some Example.document
  ∧ DocumentController.canAccessDocument Example.devCtx Example.document = Some true
  ∧ (accessLog <$> viewed.2 !! "doc1") = Some [mkAccessLogEntry "d1" "viewed" 7000].
Proof.
  intros viewed. split; [reflexivity|]. split; [reflexivity|].
  pose proof (reads_append_to_the_audit_trail 7000 Example.devCtx "doc1" Example.documents
                Example.document eq_refl) as [_ H].
  change (DocumentController.canAccessDocument Example.devCtx Example.document)
    with (Some true) in H.
  destruct H as (d1 & d2 & Hv & _ & Hlog & _).
  subst viewed. rewrite Hv. simpl. rewrite lookup_insert_eq. simpl. by rewrite Hlog.
Defined.

Lemma mapM_castEntry_userIds (l : list DocumentController.AccessEntryBody) l' :
  mapM DocumentController.castEntry l = Some l' →
  userId <$> l' = DocumentController.eb_userId <$> l.
Proof.
  rewrite mapM_Some. induction 1 as [|x y l l' Hxy _ IH]; [done|].
  rewrite !fmap_cons, IH. f_equal.
  unfold DocumentController.castEntry in Hxy.
  destruct (DocumentController.eb_role x) as [r|]; simpl in Hxy; [|by simplify_eq].
  destruct (parse_role r); simpl in Hxy; by simplify_eq.
Qed.

(** X22. Replacing the access list takes effect at once and for
    everybody but admins: after an update answered 200 that carried a new
    list, the stored user ids are those of the new list, the audit trail
    is as before, and a subject who is not an admin is allowed to read
    exactly when its id is in the new list (every entry having an id),
    the subject who made the update included. *)
Theorem updateDocument_replaces_the_access_list (u : ReqUser) docId newCls l
    (projects : gmap ObjectId Project) (documents documents' : gmap ObjectId Document) r :
  DocumentController.updateDocument u docId newCls (Some l) projects documents
  = (r, documents') →
  status r = 200 →
  ∃ d d',
    documents !! docId = Some d
    ∧ documents' = <[docId := d']> documents
    ∧ userId <$> accessibleBy d' = DocumentController.eb_userId <$> l
    ∧ accessLog d' = accessLog d
    ∧ (∀ v, role v ≠ admin →
            Forall (λ e, is_Some (DocumentController.eb_userId e)) l →
            DocumentController.canAccessDocument v d'
            = Some (bool_decide (Some (id v) ∈ DocumentController.eb_userId <$> l))).
Proof.
  unfold DocumentController.updateDocument. intros Heq Hst.
  destruct (documents !! docId) as [d|]; [|by simplify_eq].
  destruct (projects !! d_project d) as [p|]; [|by simplify_eq].
  destruct (negb _); [by simplify_eq|].
  destruct (match match newCls with Some _ => _ | None => _ end with
            | Some _ => _ | None => _ end); [by simplify_eq|].
  destruct (match match newCls with Some _ => _ | None => _ end with
            | Some _ => _ | None => _ end) as [d1|] eqn:Hd1; [|by simplify_eq].
  destruct (mapM DocumentController.castEntry l) as [l'|] eqn:Hl; simpl in Heq;
    [|by simplify_eq].
  simplify_eq. apply mapM_castEntry_userIds in Hl.
  assert (accessLog d1 = accessLog d) as Hlog.
  { destruct (match newCls with Some _ => _ | None => _ end) as [c|]; [|by simplify_eq].
    destruct (parse_classification c); simpl in Hd1; by simplify_eq. }
  exists d, (DocumentController.withAccessibleBy l' d1).
  do 3 (split; [done|]). split; [done|].
  intros v Hv Hall. unfold DocumentController.canAccessDocument.
  rewrite (bool_decide_eq_false_2 _ Hv). simpl. rewrite <- Hl.
  apply someAccess_decides.
  apply Forall_forall. intros e He.
  assert (userId e ∈ DocumentController.eb_userId <$> l) as Hin
    by (rewrite <- Hl; apply list_elem_of_fmap; by exists e).
  apply list_elem_of_fmap in Hin as (b & -> & Hb).
  rewrite Forall_forall in Hall. by apply Hall.
Qed.

Lemma updateDocument_replaces_the_access_list_witness :
  let l := [DocumentController.mkAccessEntryBody (Some "d2") (Some "developer")] in
  ∃ r documents',
    DocumentController.updateDocument Example.leadCtx "doc1" None (Some l)
      Example.projects Example.documents = (r, documents')
    ∧ status r = 200
    ∧ ∃ d',
        documents' !! "doc1" = Some d'
        ∧ DocumentController.canAccessDocument Example.leadCtx d' = Some false
        ∧ DocumentController.canAccessDocument Example.devCtx d' = Some false
        ∧ DocumentController.canAccessDocument (mkReqUser "d2" developer "d2@example.com") d'
          = Some true.
Proof.
  intros l. eexists _, _. split; [reflexivity|]. split; [reflexivity|].
  destruct (updateDocument_replaces_the_access_list Example.leadCtx "doc1" None l
              Example.projects Example.documents _ _ eq_refl eq_refl)
    as (d & d' & _ & Hdocs & _ & _ & Hacc).
  exists d'. split.
  - rewrite Hdocs. apply lookup_insert_eq.
  - assert (Forall (λ e, is_Some (DocumentController.eb_userId e)) l) as Hall
      by (repeat constructor; by eexists).
    split; [|split].
    + exact (Hacc Example.leadCtx ltac:(discriminate) Hall).
    + exact (Hacc Example.devCtx ltac:(discriminate) Hall).
    + exact (Hacc (mkReqUser "d2" developer "d2@example.com") ltac:(discriminate) Hall).
Defined.

Lemma buildAccessibleBy_outsider p uid :
  getId (projectLead p) ≠ Some uid →
  uid ∉ assignedIds p →
  Some uid ∉ userId <$> DocumentController.buildAccessibleBy p.
Proof.
  intros Hlead Hdev (e & He & Hin)%list_elem_of_fmap.
  apply buildAccessibleBy_roles in Hin as [[_ Hl]|(_ & dev & Hin & Hd)].
  - congruence.
  - apply Hdev. unfold assignedIds. apply list_elem_of_omap.
    exists dev. split; [done|congruence].
Qed.

(** X23. The uploader gets no entry in the access list.  A project lead
    who created a project that somebody else leads, and who is not among
    its developers, uploads a document (201); the document then shows in
    that lead's listing of the project, yet viewing and downloading it
    are refused with 403 and write nothing, while deleting it is allowed
    and gives back the collection as it was before the upload. *)
Theorem uploader_is_not_granted_read_access extname toLowerCase config env (u : ReqUser)
    pid file cls now project
    (projects : gmap ObjectId Project) (documents documents' : gmap ObjectId Document) r :
  DocumentController.uploadDocument extname toLowerCase config env u pid file cls
    projects documents = (r, documents') →
  status r = 201 →
  projects !! pid = Some project →
  role u = project_lead →
  getId (projectLead project) ≠ Some (id u) →
  id u ∉ assignedIds project →
  Forall (λ dev, is_Some (getId dev)) (default [] (assignedDevelopers project)) →
  let docId := DocumentController.newId env in
  getId (createdBy project) = Some (id u)
  ∧ is_Some ((DocumentController.listProjectDocuments u pid projects documents').2 !! docId)
  ∧ DocumentController.viewDocument now u docId documents' = (accessDenied, documents')
  ∧ DocumentController.downloadDocument now u docId documents' = (accessDenied, documents')
  ∧ DocumentController.deleteDocument u docId projects documents'
    = (mkResponse 200 true "Document deleted successfully", documents).
Proof.
  intros Hup Hst Hp Hr Hlead Hdev Hids docId.
  destruct (uploadDocument_created _ _ _ _ _ _ _ _ _ _ _ _ Hup Hst)
    as (p' & d & Hp' & Hcan & Hfresh & -> & Hpid & Hby & Hacc).
  rewrite Hp in Hp'. injection Hp' as <-.
  assert (idEq (getId (projectLead project)) (id u) = false) as Hl.
  { apply not_true_is_false. by rewrite idEq_true. }
  assert (idEq (getId (createdBy project)) (id u) = true) as Hc.
  { unfold DocumentController.canUploadToProject in Hcan.
    rewrite Hr, Hl in Hcan. simpl in Hcan.
    by destruct (idEq (getId (createdBy project)) (id u)). }
  assert (DocumentController.canAccessDocument u d = Some false) as Hno.
  { unfold DocumentController.canAccessDocument. rewrite Hr, Hacc. simpl.
    rewrite someAccess_decides by by apply buildAccessibleBy_userIds.
    rewrite bool_decide_eq_false_2; [done|]. by apply buildAccessibleBy_outsider. }
  split; [by apply idEq_true|]. split; [|split; [|split]].
  - unfold DocumentController.listProjectDocuments, DocumentController.canAccessProject.
    rewrite Hp, Hr, Hl, Hc. simpl. exists d.
    apply map_lookup_filter_Some. split; [apply lookup_insert_eq|done].
  - unfold DocumentController.viewDocument, DocumentController.readDocument.
    fold docId. by rewrite lookup_insert_eq, Hno.
  - unfold DocumentController.downloadDocument, DocumentController.readDocument.
    fold docId. by rewrite lookup_insert_eq, Hno.
  - unfold DocumentController.deleteDocument. fold docId.
    rewrite lookup_insert_eq, Hby. simpl.
    rewrite (bool_decide_eq_true_2 (id u = id u)) by done.
    rewrite andb_false_r. simpl.
    by rewrite delete_insert_eq, delete_id.
Qed.

Lemma uploader_is_not_granted_read_access_witness :
  let extname := λ _ : string, ".pdf" in
  let toLowerCase := λ s : string, s in
  let env := DocumentController.mkUploadEnv "brief_1700000000000_9f3a.pdf" "2c26b46b"
               (Some ("https://cdn.example.com/brief_1700000000000_9f3a",
                      "pixelforge-documents/p2/brief_1700000000000_9f3a")) "doc2" in
  let file := Some (DocumentController.mkFile "brief.pdf" 2048 "application/pdf") in
  let project := mkProject "Borealis" st_active (RefId "l2") (RefId "l1")
                   (Some [RefId "d1"]) None in
  let projects : gmap ObjectId Project := {[ "p2" := project ]} in
  let u := mkReqUser "l2" project_lead "lead2@example.com" in
  ∃ r documents',
    DocumentController.uploadDocument extname toLowerCase DocumentController.defaultConfig
      env u "p2" file None projects Example.documents = (r, documents')
    ∧ status r = 201
    ∧ DocumentController.viewDocument 7000 u "doc2" documents' = (accessDenied, documents')
    ∧ DocumentController.deleteDocument u "doc2" projects documents'
      = (mkResponse 200 true "Document deleted successfully", Example.documents).
Proof.
  intros extname toLowerCase env file project projects u.
  eexists _, _. split; [reflexivity|]. split; [reflexivity|].
  assert (id u ∉ assignedIds project) as Hdev.
  { intros Hin. apply (bool_decide_pack _) in Hin. vm_compute in Hin. exact Hin. }
  destruct (uploader_is_not_granted_read_access extname toLowerCase
              DocumentController.defaultConfig env u "p2" file None 7000 project projects
              Example.documents _ _ eq_refl eq_refl eq_refl eq_refl
              ltac:(discriminate) Hdev ltac:(repeat constructor; by eexists))
    as (_ & _ & Hview & _ & Hdel).
  split; [exact Hview|exact Hdel].
Defined.

(** X24. Who may delete a document, and what deletion does: for a stored
    document the answer is 200 exactly when the subject is an admin, or
    the uploader, or a project lead who leads or created the document's
    project, which must still exist; otherwise it is 403 and nothing
    changes.  A deletion removes that document and no other. *)
Theorem deleteDocument_decision (u : ReqUser) docId
    (projects : gmap ObjectId Project) (documents : gmap ObjectId Document) d :
  documents !! docId = Some d →
  let res := DocumentController.deleteDocument u docId projects documents in
  (status res.1 = 200
   ↔ role u = admin ∨ uploadedBy d = id u
     ∨ (role u = project_lead
        ∧ ∃ p, projects !! d_project d = Some p ∧ ownsOrLeads u p))
  ∧ (status res.1 = 200 →
     res.2 !! docId = None ∧ ∀ k, k ≠ docId → res.2 !! k = documents !! k)
  ∧ (status res.1 ≠ 200 → status res.1 = 403 ∧ res.2 = documents).
Proof.
  intros Hd res. subst res. unfold DocumentController.deleteDocument. rewrite Hd.
  assert ((role u = project_lead
           ∧ ∃ p, projects !! d_project d = Some p ∧ ownsOrLeads u p)
          ↔ bool_decide (role u = project_lead)
            && match projects !! d_project d with
               | Some p => idEq (getId (projectLead p)) (id u)
                           || idEq (getId (createdBy p)) (id u)
               | None => false
               end = true) as ->.
  { rewrite andb_true_iff, bool_decide_eq_true. apply and_iff_compat_l.
    destruct (projects !! d_project d) as [p|].
    - rewrite orb_true_iff, !idEq_true. split.
      + intros (p' & [= <-] & H). exact H.
      + intros H. by exists p.
    - split; [by intros (p' & [=] & _)|done]. }
  destruct (bool_decide (role u = project_lead) && _).
  - rewrite !andb_false_r. simpl. split; [intuition|]. split; [|done].
    intros _. split; [apply lookup_delete_eq|]. intros k Hk. by apply lookup_delete_ne.
  - rewrite !andb_true_r.
    case_bool_decide as Ha; simpl.
    + split; [intuition|]. split; [|done].
      intros _. split; [apply lookup_delete_eq|]. intros k Hk. by apply lookup_delete_ne.
    + case_bool_decide as Hu; simpl.
      * split; [intuition|]. split; [|done].
        intros _. split; [apply lookup_delete_eq|]. intros k Hk. by apply lookup_delete_ne.
      * split; [|split; [done|done]].
        split; [done|]. intros [?|[?|?]]; done.
Qed.

Lemma deleteDocument_decision_witness :
  Example.documents !! "doc1" = Some Example.document
  ∧ status (DocumentController.deleteDocument Example.devCtx "doc1" Example.projects
              Example.documents).1 = 403
  ∧ (DocumentController.deleteDocument Example.leadCtx "doc1" Example.projects
       Example.documents).2 !! "doc1" = None.
Proof.
  split; [reflexivity|]. split.
  - destruct (deleteDocument_decision Example.devCtx "doc1" Example.projects
                Example.documents Example.document eq_refl) as (_ & _ & H).
    apply H. discriminate.
  - destruct (deleteDocument_decision Example.leadCtx "doc1" Example.projects
                Example.documents Example.document eq_refl) as (_ & H & _).
    apply H. reflexivity.
Defined.

(** X25. For a subject with role developer the listing of a project and
    the read check agree: a document (whose access entries all carry a
    user id) is in the answer of the listing of a project the developer
    may access exactly when it is stored under that project and viewing or
    downloading it would be allowed. *)
Theorem developer_listing_is_what_can_be_read (u : ReqUser) pid p
    (projects : gmap ObjectId Project) (documents : gmap ObjectId Document) k d :
  role u = developer →
  projects !! pid = Some p →
  DocumentController.canAccessProject u p = true →
  Forall (λ e, is_Some (userId e)) (accessibleBy d) →
  (DocumentController.listProjectDocuments u pid projects documents).2 !! k = Some d
  ↔ documents !! k = Some d ∧ d_project d = pid
    ∧ DocumentController.canAccessDocument u d = Some true.
Proof.
  intros Hr Hp Hcan Hall.
  unfold DocumentController.listProjectDocuments, DocumentController.canAccessDocument.
  rewrite Hp, Hcan, Hr. simpl.
  rewrite map_lookup_filter_Some. simpl. unfold DocumentController.listedFor.
  rewrite someAccess_decides by done.
  split.
  - intros (Hk & Hpid & Hin). by rewrite bool_decide_eq_true_2.
  - intros (Hk & Hpid & [= Hin]). apply bool_decide_eq_true in Hin. done.
Qed.

Lemma developer_listing_is_what_can_be_read_witness :
  role Example.devCtx = developer
  ∧ DocumentController.canAccessProject Example.devCtx Example.project = true
  ∧ (DocumentController.listProjectDocuments Example.devCtx "p1" Example.projects
       Example.documents).2 !! "doc1" = Some Example.document.
Proof.
  split; [reflexivity|]. split; [reflexivity|].
  apply (developer_listing_is_what_can_be_read Example.devCtx "p1" Example.project
           Example.projects Example.documents "doc1" Example.document
           eq_refl eq_refl eq_refl).
  - repeat constructor; by eexists.
  - repeat split; reflexivity.
Defined.

(** X26. Documents outlive their project.  Deleting a project does not
    touch the document collection; afterwards a document stored under
    that project can no longer be listed or updated by anybody (404), and
    it can be deleted only by an admin or by its uploader. *)
Theorem documents_of_a_deleted_project (a v : ReqUser) pid docId d r
    (projects projects' : gmap ObjectId Project) (documents : gmap ObjectId Document) :
  ProjectController.deleteProject a pid projects = (r, projects') →
  status r = 200 →
  documents !! docId = Some d →
  d_project d = pid →
  (DocumentController.listProjectDocuments v pid projects' documents).1
  = mkResponse 404 false "Project not found"
  ∧ (∀ cls l, DocumentController.updateDocument v docId cls l projects' documents
              = (mkResponse 404 false "Associated project not found", documents))
  ∧ (status (DocumentController.deleteDocument v docId projects' documents).1 = 200
     ↔ role v = admin ∨ uploadedBy d = id v).
Proof.
  unfold ProjectController.deleteProject. intros Hdel Hst Hd Hpid.
  destruct (projects !! pid); [|by simplify_eq].
  destruct (negb _); simplify_eq.
  pose proof (lookup_delete_eq projects (d_project d)) as Hgone.
  split; [|split].
  - unfold DocumentController.listProjectDocuments. by rewrite Hgone.
  - intros cls l. unfold DocumentController.updateDocument. by rewrite Hd, Hgone.
  - unfold DocumentController.deleteDocument. rewrite Hd, Hgone. simpl.
    rewrite andb_false_r, andb_true_r.
    repeat case_bool_decide; simpl; intuition congruence.
Qed.

Lemma documents_of_a_deleted_project_witness :
  ∃ r projects',
    ProjectController.deleteProject Example.rootCtx "p1" Example.projects = (r, projects')
    ∧ status r = 200
    ∧ Example.documents !! "doc1" = Some Example.document
    ∧ (∀ cls l, DocumentController.updateDocument Example.rootCtx "doc1" cls l projects'
                  Example.documents
                = (mkResponse 404 false "Associated project not found", Example.documents))
    ∧ status (DocumentController.deleteDocument Example.leadCtx "doc1" projects'
                Example.documents).1 = 200.
Proof.
  eexists _, _. split; [reflexivity|]. split; [reflexivity|]. split; [reflexivity|].
  split.
  - exact (proj1 (proj2 (documents_of_a_deleted_project Example.rootCtx Example.rootCtx
                           "p1" "doc1" Example.document _ Example.projects _
                           Example.documents eq_refl eq_refl eq_refl eq_refl))).
  - apply (proj2 (proj2 (documents_of_a_deleted_project Example.rootCtx Example.leadCtx
                           "p1" "doc1" Example.document _ Example.projects _
                           Example.documents eq_refl eq_refl eq_refl eq_refl))).
    right. reflexivity.
Defined.

(** ** Accounts, continued (middleware/auth.js, controllers/userController.js) *)

(** X27. The lock check of the middleware and the one of the login agree:
    for the account that a login name selects, [checkAccountLock] stops
    an authenticated request of that account exactly when a login at the
    same time is refused as locked out, with the same answer; it answers
    nothing else, and it never stops a request without a subject. *)
Theorem checkAccountLock_agrees_with_login bcrypt_compare cfg now name secret uid u
    (ru : ReqUser) (users : gmap ObjectId User.t) :
  users !! uid = Some u →
  AuthController.matchesLogin name u = true →
  soleMatch name uid users →
  id ru = uid →
  (AuthMiddleware.checkAccountLock now (Some ru) users = Some lockedOut
   ↔ (AuthController.login bcrypt_compare cfg now name secret users).1.1 = lockedOut)
  ∧ (AuthMiddleware.checkAccountLock now (Some ru) users = Some lockedOut
     ↔ User.isLocked now u = true)
  ∧ AuthMiddleware.checkAccountLock now (Some ru) users ∈ [None; Some lockedOut]
  ∧ AuthMiddleware.checkAccountLock now None users = None.
Proof.
  intros Hu Hm Hsole Hid.
  unfold AuthMiddleware.checkAccountLock, AuthController.login.
  rewrite (findOne_sole _ _ _ _ Hu Hm Hsole), Hid, Hu.
  destruct (User.isLocked now u); simpl.
  - repeat split; try done. repeat constructor.
  - split; [|repeat split; try done; repeat constructor].
    split; [done|].
    destruct (negb (User.isActive u)); [done|].
    destruct (negb _); [done|].
    by destruct (User.mfaEnabled u).
Qed.

Lemma checkAccountLock_agrees_with_login_witness :
  let locked := User.with_lockUntil (Some 9000) (User.with_loginAttempts 5 Example.alice) in
  let users := <["u1" := locked]> Example.users in
  ∃ name,
    AuthController.matchesLogin name locked = true
    ∧ AuthMiddleware.checkAccountLock 5000
        (Some (mkReqUser "u1" developer "alice@example.com")) users = Some lockedOut.
Proof.
  intros locked users. exists (User.username locked).
  assert (AuthController.matchesLogin (User.username locked) locked = true) as Hm
    by reflexivity.
  split; [exact Hm|].
  assert (soleMatch (User.username locked) "u1" users) as Hsole.
  { apply (bool_decide_unpack _). vm_compute. exact I. }
  destruct (checkAccountLock_agrees_with_login Example.compare Example.cfg 5000
              (User.username locked) "whatever" "u1" locked
              (mkReqUser "u1" developer "alice@example.com") users
              eq_refl Hm Hsole eq_refl) as (_ & H & _).
  apply H. reflexivity.
Defined.

(** X28. [updateUser] writes the profile of its target and nothing else:
    whatever the body and the answer, no account is added or removed,
    every other account is as before, and of the target only the full
    name, the e-mail address, the role and the active flag may differ;
    the password, the time of its last change and the login state are
    never written. *)
Theorem updateUser_only_writes_the_profile emailFormatOk toLowerCase
    (req_user : ReqUser) target body (users : gmap ObjectId User.t) :
  let res := UserController.updateUser emailFormatOk toLowerCase req_user target body users in
  (∀ i, eraseProfile <$> res.2 !! i = eraseProfile <$> users !! i)
  ∧ (∀ i, i ≠ target → res.2 !! i = users !! i)
  ∧ (∀ i, is_Some (res.2 !! i) ↔ is_Some (users !! i)).
Proof.
  intros res. subst res. unfold UserController.updateUser.
  destruct (UserController.truthy (UserController.b_password body)); [done|].
  destruct (negb _); [done|].
  destruct (users !! target) as [user|] eqn:Hu; [|done].
  destruct (match UserController.castEmail toLowerCase body with
            | Some _ => _ | None => _ end); [done|].
  simpl. split; [|split].
  - intros i. destruct (decide (i = target)) as [->|Hi].
    + rewrite lookup_insert_eq, Hu. simpl. f_equal.
      unfold UserController.applyUpdate.
      destruct (UserController.castFullName body),
        (UserController.castEmail toLowerCase body),
        (UserController.castRole body),
        (UserController.b_isActive body); reflexivity.
    + by rewrite lookup_insert_ne.
  - intros i Hi. by rewrite lookup_insert_ne.
  - intros i. destruct (decide (i = target)) as [->|Hi].
    + rewrite lookup_insert_eq, Hu. split; by eexists.
    + by rewrite lookup_insert_ne.
Qed.
